(** * import_products_from_excel.py: a shallow embedding and its properties

    The development follows the layout of the script:
    - Python built-ins the script relies on (text, numbers, truthiness);
    - the helpers [_to_bool], [_to_float], [_safe_str];
    - [OdooClient], a thin wrapper over the four XML-RPC methods;
    - [ProductImporter] with [ensure_category] and [import_row];
    - the per-thread importer, [worker_task] and the reporting loop of [main].

    Text is modelled as [string] whose characters are the code points
    U+0000..U+00FF (one [ascii] per code point), on which the tables used by
    [str.strip], [str.lower], [str.isdigit], [int] and [float] are exact.
    Three libraries take part in what the script does and are modelled with
    it: [pd.Series], through which a worker reads its record;
    [xmlrpc.client.ServerProxy], which refuses an address before anything is
    sent; and [ThreadPoolExecutor]. The remote Odoo server is not part of
    the script: it is a parameter, an arbitrary state machine answering (or
    faulting on) each call. *)

From Stdlib Require Import ZArith Ascii.
From stdpp Require Import gmap strings list fin_maps pretty.

Local Open Scope Z_scope.

(** ** Python text built-ins *)

Module PyStr.

Definition code (c : ascii) : nat := nat_of_ascii c.

Definition between (lo hi : nat) (c : ascii) : bool :=
  (lo <=? code c)%nat && (code c <=? hi)%nat.

(** [str.isspace] on one character. *)
Definition isspace (c : ascii) : bool :=
  between 9 13 c || between 28 32 c || (code c =? 133)%nat || (code c =? 160)%nat.

(** ASCII decimal digit. *)
Definition isdecimal (c : ascii) : bool := between 48 57 c.

(** [str.isdigit] on one character: the decimal digits and the
    superscripts U+00B2, U+00B3, U+00B9. *)
Definition isdigit_char (c : ascii) : bool :=
  isdecimal c || (code c =? 178)%nat || (code c =? 179)%nat || (code c =? 185)%nat.

Definition lower_char (c : ascii) : ascii :=
  if between 65 90 c || (between 192 222 c && negb (code c =? 215)%nat)
  then ascii_of_nat (code c + 32)
  else c.

Fixpoint lower (s : string) : string :=
  match s with
  | EmptyString => EmptyString
  | String c r => String (lower_char c) (lower r)
  end.

Fixpoint drop_while (p : ascii -> bool) (s : string) : string :=
  match s with
  | EmptyString => EmptyString
  | String c r => if p c then drop_while p r else s
  end.

Definition strip_with (p : ascii -> bool) (s : string) : string :=
  String.rev (drop_while p (String.rev (drop_while p s))).

(** [s.strip()] *)
Definition strip (s : string) : string := strip_with isspace s.

Fixpoint all_chars (p : ascii -> bool) (s : string) : bool :=
  match s with
  | EmptyString => true
  | String c r => p c && all_chars p r
  end.

Definition nonempty (s : string) : bool :=
  match s with EmptyString => false | _ => true end.

(** [s.isdigit()] *)
Definition isdigit (s : string) : bool := nonempty s && all_chars isdigit_char s.

Definition digit_val (c : ascii) : Z := Z.of_nat (code c - 48).

Fixpoint digits_value (acc : Z) (s : string) : Z :=
  match s with
  | EmptyString => acc
  | String c r => digits_value (10 * acc + digit_val c) r
  end.

(** Length of the longest prefix whose characters are in [p]. *)
Fixpoint prefix_length (p : ascii -> bool) (s : string) : nat :=
  match s with
  | EmptyString => O
  | String c r => if p c then S (prefix_length p r) else O
  end.

(** [sys.get_int_max_str_digits()], at its default. *)
Definition max_str_digits : nat := 4300.

(** [int(s)] for a string that passed [isdigit]; [inl] is the text of the
    [ValueError] raised. A run of decimal digits converts, unless it has
    more digits than the interpreter allows (the digits are counted on the
    leading run of decimal digits, before the rest is looked at); a
    superscript digit is no literal. *)
Definition int_of_digits (s : string) : string + Z :=
  let digits := prefix_length isdecimal s in
  if (max_str_digits <? digits)%nat then
    inl ("Exceeds the limit (4300 digits) for integer string conversion: value has "
         +:+ pretty digits
         +:+ " digits; use sys.set_int_max_str_digits() to increase the limit")
  else if all_chars isdecimal s then inr (digits_value 0 s)
  else inl ("invalid literal for int() with base 10: '" +:+ s +:+ "'").

(** ["." in s] and the like. *)
Fixpoint contains (c : ascii) (s : string) : bool :=
  match s with
  | EmptyString => false
  | String d r => if Ascii.eqb c d then true else contains c r
  end.

(** [s.split(c, 1)] for a string that contains [c]: the text before the
    first [c] and the text after it. *)
Fixpoint split1 (c : ascii) (s : string) : string * string :=
  match s with
  | EmptyString => (EmptyString, EmptyString)
  | String d r =>
      if Ascii.eqb c d then (EmptyString, r)
      else let '(a, b) := split1 c r in (String d a, b)
  end.

(** [s.replace(a, b)] for single characters. *)
Fixpoint replace (a b : ascii) (s : string) : string :=
  match s with
  | EmptyString => EmptyString
  | String d r => String (if Ascii.eqb a d then b else d) (replace a b r)
  end.

(** [x or y] on text. *)
Definition or_else (x y : string) : string := if nonempty x then x else y.

Fixpoint repeat (c : ascii) (n : nat) : string :=
  match n with O => EmptyString | S k => String c (repeat c k) end.

Fixpoint take (n : nat) (s : string) : string :=
  match n, s with
  | S k, String c r => String c (take k r)
  | _, _ => EmptyString
  end.

Fixpoint drop (n : nat) (s : string) : string :=
  match n, s with
  | S k, String _ r => drop k r
  | _, _ => s
  end.

End PyStr.

(** ** Python floats

    A finite float is kept as a decimal, [(-1)^neg * m * 10^e]. Conversion
    from text rounds at the two ends of the binary64 range, to zero and to
    infinity, so that the truth value of a converted number is the one
    Python gives; inside the range a literal is kept as written, so the
    model agrees with Python on the value of literals of at most 15
    significant digits. *)

Inductive pyfloat : Type :=
| FNan
| FInf (neg : bool)
| FFin (neg : bool) (m : N) (e : Z).

Module PyFloat.
Import PyStr.

Definition zero : pyfloat := FFin false 0 0.

(** [bool(x)]: false for 0.0 and -0.0 only. *)
Definition truthy (x : pyfloat) : bool :=
  match x with
  | FFin _ m _ => negb (m =? 0)%N
  | _ => true
  end.

(** White space that [float] ignores around the literal. *)
Definition isspace_f (c : ascii) : bool :=
  between 9 13 c || (code c =? 32)%nat || (code c =? 133)%nat || (code c =? 160)%nat.

(** Digit-group underscores: allowed only between two digits. *)
Fixpoint drop_underscores (prev : ascii) (s : string) : option string :=
  match s with
  | EmptyString => if Ascii.eqb prev "_" then None else Some EmptyString
  | String c r =>
      if Ascii.eqb c "_" then
        if isdecimal prev then drop_underscores c r else None
      else if Ascii.eqb prev "_" && negb (isdecimal c) then None
      else String c <$> drop_underscores c r
  end.

(** Longest prefix of decimal digits, and the rest. *)
Fixpoint span_digits (s : string) : string * string :=
  match s with
  | String c r =>
      if isdecimal c then let '(d, t) := span_digits r in (String c d, t)
      else (EmptyString, s)
  | EmptyString => (EmptyString, EmptyString)
  end.

Definition take_sign (s : string) : bool * string :=
  match s with
  | String "-" r => (true, r)
  | String "+" r => (false, r)
  | _ => (false, s)
  end.

(** The exponent part: [e] or [E], an optional sign and at least one
    digit, up to the end of the text. An empty text is exponent 0. *)
Definition parse_exponent (s : string) : option Z :=
  match s with
  | EmptyString => Some 0
  | String c r =>
      if Ascii.eqb (lower_char c) "e" then
        let '(neg, r1) := take_sign r in
        let '(d, r2) := span_digits r1 in
        if nonempty d && negb (nonempty r2)
        then Some (if neg then - digits_value 0 d else digits_value 0 d)
        else None
      else None
  end.

(** The two ends of the binary64 range, for a magnitude [m * 10^e] other
    than zero. A magnitude of at most 2^-1075, half the smallest subnormal
    number, rounds to zero; one of at least 2^1024 - 2^970, half-way between
    the largest float and 2^1024, rounds to infinity. *)
Definition underflows (m : N) (e : Z) : bool :=
  (e <? 0) && (Z.of_N m * 2 ^ 1075 <=? 10 ^ (- e)).

Definition overflows (m : N) (e : Z) : bool :=
  if e <? 0 then (2 ^ 1024 - 2 ^ 970) * 10 ^ (- e) <=? Z.of_N m
  else 2 ^ 1024 - 2 ^ 970 <=? Z.of_N m * 10 ^ e.

Definition rounded (neg : bool) (m : N) (e : Z) : pyfloat :=
  if (m =? 0)%N then FFin neg 0 e
  else if overflows m e then FInf neg
  else if underflows m e then FFin neg 0 e
  else FFin neg m e.

Definition parse_number (neg : bool) (s : string) : option pyfloat :=
  let '(ip, r1) := span_digits s in
  let '(fp, r2) :=
    match r1 with
    | String "." r => span_digits r
    | _ => (EmptyString, r1)
    end in
  if nonempty ip || nonempty fp then
    ex ← parse_exponent r2;
    Some (rounded neg (Z.to_N (digits_value 0 (ip +:+ fp)))
                  (ex - Z.of_nat (String.length fp)))
  else None.

(** [float(s)]; [None] is [ValueError]. *)
Definition of_str (s : string) : option pyfloat :=
  t ← drop_underscores "000" (strip_with isspace_f s);
  let '(neg, body) := take_sign t in
  let w := lower body in
  if String.eqb w "inf" || String.eqb w "infinity" then Some (FInf neg)
  else if String.eqb w "nan" then Some FNan
  else parse_number neg body.

(** Trailing zeros of a digit string removed; the count comes with it. *)
Definition trim_zeros (d : string) : string * nat :=
  let t := String.rev (drop_while (Ascii.eqb "0") (String.rev d)) in
  (t, (String.length d - String.length t)%nat).

Definition two_digits (n : Z) : string :=
  if n <? 10 then "0" +:+ pretty n else pretty n.

(** [repr(x)], which is also [str(x)]: fixed notation while the decimal
    point falls within (-4, 16], scientific notation otherwise. *)
Definition repr (x : pyfloat) : string :=
  match x with
  | FNan => "nan"
  | FInf neg => if neg then "-inf" else "inf"
  | FFin neg m e =>
      let sign := if neg then "-" else "" in
      if (m =? 0)%N then sign +:+ "0.0"
      else
        let '(d, z) := trim_zeros (pretty m) in
        let nd := Z.of_nat (String.length d) in
        let decpt := nd + e + Z.of_nat z in
        if (-4 <? decpt) && (decpt <=? 16) then
          if decpt <=? 0 then
            sign +:+ "0." +:+ PyStr.repeat "0" (Z.to_nat (- decpt)) +:+ d
          else if nd <=? decpt then
            sign +:+ d +:+ PyStr.repeat "0" (Z.to_nat (decpt - nd)) +:+ ".0"
          else
            sign +:+ take (Z.to_nat decpt) d +:+ "." +:+ drop (Z.to_nat decpt) d
        else
          let ex := decpt - 1 in
          sign +:+ take 1 d
               +:+ (if 1 <? nd then "." +:+ drop 1 d else "")
               +:+ "e" +:+ (if ex <? 0 then "-" else "+")
               +:+ two_digits (Z.abs ex)
  end.

End PyFloat.

(** ** Python values found in a row, in a value map and in a reply *)

Inductive pyval : Type :=
| PNone
| PBool (b : bool)
| PInt (z : Z)
| PFloat (f : pyfloat)
| PStr (s : string).

Module Py.

(** [str(v)] *)
Definition str (v : pyval) : string :=
  match v with
  | PNone => "None"
  | PBool b => if b then "True" else "False"
  | PInt z => pretty z
  | PFloat f => PyFloat.repr f
  | PStr s => s
  end.

(** [bool(v)] *)
Definition truthy (v : pyval) : bool :=
  match v with
  | PNone => false
  | PBool b => b
  | PInt z => negb (z =? 0)
  | PFloat f => PyFloat.truthy f
  | PStr s => PyStr.nonempty s
  end.

(** [pd.isna(v)] on a scalar. *)
Definition isna (v : pyval) : bool :=
  match v with
  | PNone | PFloat FNan => true
  | _ => false
  end.

(** [d.get(k)]: [None] for a missing key. *)
Definition get (d : gmap string pyval) (k : string) : pyval :=
  default PNone (d !! k).

End Py.

(** ** General helpers of the script *)

(** The label of a row without name and code, ["(sin nombre ni c\243digo)"]. *)
Definition sin_nombre_ni_codigo : string :=
  "(sin nombre ni c" +:+ String "243" "digo)".

Definition truthy_tokens : list string :=
  ["1"; "true"; "t"; "si"; String "s" (String "237" ""); "yes"; "y"; "x"; "s"].

Definition _to_bool (v : pyval) : bool :=
  match v with
  | PNone => false
  | PBool b => b
  | _ => bool_decide (PyStr.lower (PyStr.strip (Py.str v)) ∈ truthy_tokens)
  end.

Definition _to_float (v : pyval) : pyfloat :=
  match v with
  | PNone | PStr "" => PyFloat.zero
  | _ =>
      match PyFloat.of_str (PyStr.replace "," "." (Py.str v)) with
      | Some f => f
      | None => PyFloat.zero
      end
  end.

Definition _safe_str (v : pyval) : string :=
  if Py.isna v then ""
  else match v with
       | PNone => ""
       | _ => PyStr.strip (Py.str v)
       end.

(** ** pandas: a record read as a Series

    [pd.Series(row_dict)] gives the cells of a record one dtype. A record
    with a text cell keeps its cells as they are (dtype [object]); so does a
    record with a boolean cell (a record of booleans only has dtype [bool],
    whose cells read like the booleans they were). A record of numbers only
    is [float64] as soon as one of its cells is a float, NaN included, or is
    missing next to an integer: every integer cell then reads as a float
    ([123] as [123.0]) and a missing cell as NaN. A record of integers only
    stays as it is ([int64]), and so does a record of missing cells only.
    The integers are those of a sheet: they fit in 64 bits. *)

Definition is_text (v : pyval) : bool :=
  match v with PStr _ => true | _ => false end.

Definition is_boolean (v : pyval) : bool :=
  match v with PBool _ => true | _ => false end.

Definition is_float (v : pyval) : bool :=
  match v with PFloat _ => true | _ => false end.

Definition is_integer (v : pyval) : bool :=
  match v with PInt _ => true | _ => false end.

Definition is_missing (v : pyval) : bool :=
  match v with PNone => true | _ => false end.

(** A cell of a [float64] Series. *)
Definition float64 (v : pyval) : pyval :=
  match v with
  | PNone => PFloat FNan
  | PInt z => PFloat (FFin (z <? 0) (Z.abs_N z) 0)
  | _ => v
  end.

Definition pd_Series (data : gmap string pyval) : gmap string pyval :=
  let cells := (map_to_list data).*2 in
  if existsb is_text cells || existsb is_boolean cells then data
  else if existsb is_float cells || (existsb is_integer cells && existsb is_missing cells)
  then float64 <$> data
  else data.

(** ** Addresses

    [urllib.parse.urlsplit(url).scheme]: white space and control characters
    in front of the address are dropped, tabs and line breaks are removed
    everywhere, and the text before the first colon is the scheme when it
    starts with a letter and is made of letters, digits, [+], [-] and [.];
    the scheme is given in lower case. *)

Module Url.
Import PyStr.

Definition is_c0_or_space (c : ascii) : bool := (code c <=? 32)%nat.

Definition is_unsafe (c : ascii) : bool :=
  (code c =? 9)%nat || (code c =? 13)%nat || (code c =? 10)%nat.

Fixpoint remove (p : ascii -> bool) (s : string) : string :=
  match s with
  | EmptyString => EmptyString
  | String c r => if p c then remove p r else String c (remove p r)
  end.

Definition is_alpha (c : ascii) : bool := between 65 90 c || between 97 122 c.

Definition scheme_char (c : ascii) : bool :=
  is_alpha c || isdecimal c
  || (code c =? 43)%nat || (code c =? 45)%nat || (code c =? 46)%nat.

Definition starts_with (p : ascii -> bool) (s : string) : bool :=
  match s with
  | EmptyString => false
  | String c _ => p c
  end.

Definition scheme (url : string) : string :=
  let url := remove is_unsafe (drop_while is_c0_or_space url) in
  if contains ":" url then
    let prefix := (split1 ":" url).1 in
    if nonempty prefix && starts_with is_alpha url && all_chars scheme_char prefix
    then lower prefix
    else ""
  else "".

End Url.

(** ** The remote server

    The script talks to Odoo through XML-RPC only. The server is a parameter:
    a state of any type and, for each remote method, a handler that either
    answers or makes the call raise ([inl] carries the text of the exception:
    a fault, a protocol or transport error, a marshalling error). With it
    comes [host_error], the one part of [xmlrpc.client] that is left open:
    the [ValueError] with which [urlsplit] refuses an address whose host is
    malformed (an unmatched square bracket, an invalid bracketed literal),
    if it does. *)

Definition domain : Type := list (string * string * pyval).

Record Server (St : Type) : Type := {
  host_error : string -> option string;
  on_authenticate : string -> string -> string -> St -> (string + pyval) * St;
  on_search : string -> domain -> option Z -> St -> (string + list Z) * St;
  on_create : string -> gmap string pyval -> St -> (string + Z) * St;
  on_write : string -> list Z -> gmap string pyval -> St -> (string + bool) * St;
  on_read : string -> list Z -> list string -> St
            -> (string + list (gmap string pyval)) * St;
}.
Arguments host_error {St}.
Arguments on_authenticate {St}.
Arguments on_search {St}.
Arguments on_create {St}.
Arguments on_write {St}.
Arguments on_read {St}.

(** What went over the wire. *)
Inductive call : Type :=
| Authenticate (db user password : string)
| Search (model : string) (dom : domain) (kwargs : option Z)
| Create (model : string) (vals : gmap string pyval)
| Write (model : string) (ids : list Z) (vals : gmap string pyval)
| Read (model : string) (ids : list Z) (fields : list string).

Record event : Type := { ev_call : call; ev_fault : option string }.

Record OdooClient : Type := {
  url : string; db : string; user : string; password : string; uid : pyval;
}.

Record ProductImporter : Type := { client : OdooClient; base_dir : string }.

Section Script.

Context {St : Type} (odoo : Server St).

(** Process-wide configuration, read from the environment at import time. *)
Variables ODOO_URL ODOO_DB ODOO_USER ODOO_PASSWORD : string.

(** Everything a thread can observe or change: the server, the log of the
    remote calls made so far, the lines printed, and [_thread_local], the
    importer owned by each thread. *)
Record world : Type := {
  w_server : St;
  w_log : list event;
  w_stdout : list string;
  w_local : gmap nat ProductImporter;
}.

(** Computations that may raise: [inl] is a raised exception, kept as its
    text [str(e)]. The world is threaded through in both cases. *)
Definition M (A : Type) : Type := world -> (string + A) * world.

Definition ret {A} (a : A) : M A := fun w => (inr a, w).
Definition raise {A} (e : string) : M A := fun w => (inl e, w).
Definition bind {A B} (m : M A) (k : A -> M B) : M B := fun w =>
  match m w with
  | (inr a, w') => k a w'
  | (inl e, w') => (inl e, w')
  end.

#[local] Instance M_ret : MRet M := @ret.
#[local] Instance M_bind : MBind M := fun A B k m => bind m k.

Definition of_sum {A} (r : string + A) : M A :=
  match r with inl e => raise e | inr a => ret a end.

Definition print (line : string) : M unit := fun w =>
  (inr (), {| w_server := w_server w; w_log := w_log w;
              w_stdout := w_stdout w ++ [line]; w_local := w_local w |}).

Definition fault_of {R} (r : string + R) : option string :=
  match r with inl e => Some e | inr _ => None end.

(** The world after a call [c] that left the server in state [s]. *)
Definition logged (w : world) (c : call) (fault : option string) (s : St)
    : world :=
  {| w_server := s;
     w_log := w_log w ++ [{| ev_call := c; ev_fault := fault |}];
     w_stdout := w_stdout w; w_local := w_local w |}.

(** One remote call: the handler runs on the server, the call is logged
    with its outcome, and a fault is raised in the caller. *)
Definition rpc {R} (c : call) (h : St -> (string + R) * St) : M R := fun w =>
  let '(r, s) := h (w_server w) in (r, logged w c (fault_of r) s).

(** *** class OdooClient *)

Definition rstrip_slash (s : string) : string :=
  String.rev (PyStr.drop_while (Ascii.eqb "/") (String.rev s)).

(** [xmlrpc.client.ServerProxy(uri)]: the address is parsed, which can
    raise, and a scheme other than http and https is refused with [OSError];
    nothing is sent. [inl] is the text of the exception. *)
Definition ServerProxy (uri : string) : string + unit :=
  match host_error odoo uri with
  | Some e => inl e
  | None =>
      if bool_decide (Url.scheme uri ∈ ["http"; "https"]) then inr ()
      else inl "unsupported XML-RPC protocol"
  end.

Definition OdooClient_init (url db user password : string) : M OdooClient :=
  let self_url := rstrip_slash url in
  _ ← of_sum (ServerProxy (self_url +:+ "/xmlrpc/2/common"));
  uid ← rpc (Authenticate db user password) (on_authenticate odoo db user password);
  if negb (Py.truthy uid) then raise "Error autenticando en Odoo." else
  _ ← of_sum (ServerProxy (self_url +:+ "/xmlrpc/2/object"));
  mret {| url := self_url; db := db; user := user;
          password := password; uid := uid |}.

Definition search (self : OdooClient) (model : string) (dom : domain)
    (limit : Z) : M (list Z) :=
  let kwargs := if limit =? 0 then None else Some limit in
  rpc (Search model dom kwargs) (on_search odoo model dom kwargs).

Definition create (self : OdooClient) (model : string)
    (vals : gmap string pyval) : M Z :=
  rpc (Create model vals) (on_create odoo model vals).

Definition write (self : OdooClient) (model : string) (ids : list Z)
    (vals : gmap string pyval) : M bool :=
  rpc (Write model ids vals) (on_write odoo model ids vals).

Definition read (self : OdooClient) (model : string) (ids : list Z)
    (fields : list string) : M (list (gmap string pyval)) :=
  rpc (Read model ids fields) (on_read odoo model ids fields).

(** *** class ProductImporter *)

(** The registry part shared by steps 2 and 3 of [ensure_category]:
    [rec = read(ids, ["res_id"])], then
    [if rec and rec[0].get("res_id"): return rec[0]["res_id"]].
    [Some v] stands for [return v], [None] for falling through. *)
Definition read_res_id (self : ProductImporter) (ids : list Z)
    : M (option pyval) :=
  rec ← read (client self) "ir.model.data" ids ["res_id"];
  match rec with
  | r :: _ => if Py.truthy (Py.get r "res_id")
              then mret (Some (Py.get r "res_id")) else mret None
  | [] => mret None
  end.

Definition ensure_category (self : ProductImporter) (value : pyval) : M pyval :=
  let value := _safe_str value in
  if negb (PyStr.nonempty value) then mret PNone else
  (* 1) numeric id *)
  r ← (if PyStr.isdigit value then
         n ← of_sum (PyStr.int_of_digits value);
         ids ← search (client self) "product.category" [("id", "=", PInt n)] 1;
         match ids with
         | i :: _ => mret (Some (PInt i))
         | [] => mret None
         end
       else mret None);
  match r with Some v => mret v | None =>
  (* 2) full XML-ID module.name *)
  r ← (if PyStr.contains "." value then
         let '(module, name) := PyStr.split1 "." value in
         let dom := [("module", "=", PStr module); ("name", "=", PStr name);
                     ("model", "=", PStr "product.category")] in
         ids ← search (client self) "ir.model.data" dom 1;
         match ids with
         | _ :: _ => read_res_id self ids
         | [] => mret None
         end
       else mret None);
  match r with Some v => mret v | None =>
  (* 3) external id alone *)
  ids ← search (client self) "ir.model.data"
          [("name", "=", PStr value); ("model", "=", PStr "product.category")] 1;
  r ← (match ids with
       | _ :: _ => read_res_id self ids
       | [] => mret None
       end);
  match r with Some v => mret v | None =>
  (* 4) category name *)
  ids ← search (client self) "product.category" [("name", "=", PStr value)] 1;
  match ids with
  | i :: _ => mret (PInt i)
  | [] =>
      _ ← print ("[WARN] Categor" +:+ String "237" "a no encontrada: '" +:+ value
                   +:+ "'. Usar" +:+ String "225" " 'All'.");
      mret PNone
  end end end end.

(** The resolver as the specification words it: four strategies, each
    yielding an id or nothing, tried in a fixed order until one yields. A
    purely numeric token, a run of decimal digits, is a literal id. *)
Definition literal_id (token : string) : option Z :=
  if PyStr.nonempty token && PyStr.all_chars PyStr.isdecimal token
  then Some (PyStr.digits_value 0 token)
  else None.

Definition by_numeric_id (self : ProductImporter) (token : string)
    : M (option pyval) :=
  match literal_id token with
  | Some n =>
      ids ← search (client self) "product.category" [("id", "=", PInt n)] 1;
      mret (PInt <$> head ids)
  | None => mret None
  end.

Definition registry_id (self : ProductImporter) (dom : domain)
    : M (option pyval) :=
  ids ← search (client self) "ir.model.data" dom 1;
  if bool_decide (ids = []) then mret None else
  recs ← read (client self) "ir.model.data" ids ["res_id"];
  mret (r ← head recs;
        if Py.truthy (Py.get r "res_id") then Some (Py.get r "res_id") else None).

Definition by_qualified_external_id (self : ProductImporter) (token : string)
    : M (option pyval) :=
  if PyStr.contains "." token then
    registry_id self [("module", "=", PStr (PyStr.split1 "." token).1);
                      ("name", "=", PStr (PyStr.split1 "." token).2);
                      ("model", "=", PStr "product.category")]
  else mret None.

Definition by_bare_external_id (self : ProductImporter) (token : string)
    : M (option pyval) :=
  registry_id self [("name", "=", PStr token);
                    ("model", "=", PStr "product.category")].

Definition by_display_name (self : ProductImporter) (token : string)
    : M (option pyval) :=
  ids ← search (client self) "product.category" [("name", "=", PStr token)] 1;
  mret (PInt <$> head ids).

Fixpoint first_id (strategies : list (M (option pyval))) : M (option pyval) :=
  match strategies with
  | [] => mret None
  | s :: rest =>
      r ← s;
      match r with
      | Some id => mret (Some id)
      | None => first_id rest
      end
  end.

Definition strategies (self : ProductImporter) (token : string)
    : list (M (option pyval)) :=
  [by_numeric_id self token; by_qualified_external_id self token;
   by_bare_external_id self token; by_display_name self token].

Definition resolve_by_precedence (self : ProductImporter) (value : pyval)
    : M pyval :=
  let token := _safe_str value in
  if PyStr.nonempty token then
    r ← first_id (strategies self token);
    match r with
    | Some id => mret id
    | None =>
        _ ← print ("[WARN] Categor" +:+ String "237" "a no encontrada: '" +:+ token
                   +:+ "'. Usar" +:+ String "225" " 'All'.");
        mret PNone
    end
  else mret PNone.

(** [if cond: vals[k] = v] *)
Definition set_if (cond : bool) (k : string) (v : pyval)
    (vals : gmap string pyval) : gmap string pyval :=
  if cond then <[k := v]> vals else vals.

(** The value map of [import_row] (the lines from [supplier_code] down to
    [vals["categ_id"]]), for a row and the category id resolved for it. *)
Definition build_vals (row : gmap string pyval) (categ_id : pyval)
    : gmap string pyval :=
  let default_code := _safe_str (Py.get row "default_code") in
  let name := _safe_str (Py.get row "name") in
  let supplier_code := _safe_str (Py.get row "supplier_code") in
  let brand_name := _safe_str (Py.get row "brand") in
  let barcode := _safe_str (Py.get row "barcode") in
  let barcode := if String.eqb (PyStr.lower barcode) "nan" then "" else barcode in
  let list_price := _to_float (Py.get row "list_price") in
  let standard_price := _to_float (Py.get row "standard_price") in
  let available_in_pos := _to_bool (Py.get row "available_in_pos") in
  let purchase_ok := _to_bool (Py.get row "purchase_ok") in
  let sale_ok := _to_bool (Py.get row "sale_ok") in
  let is_storable_flag := _to_bool (Py.get row "is_storable") in
  let vals : gmap string pyval := ∅ in
  let vals := set_if (PyStr.nonempty name) "name" (PStr name) vals in
  let vals := set_if (PyStr.nonempty default_code) "default_code" (PStr default_code) vals in
  let vals := set_if (PyStr.nonempty barcode) "barcode" (PStr barcode) vals in
  let vals := set_if (PyFloat.truthy list_price) "list_price" (PFloat list_price) vals in
  let vals := set_if (PyFloat.truthy standard_price) "standard_price"
                     (PFloat standard_price) vals in
  let vals := set_if (PyStr.nonempty supplier_code) "supplier_code"
                     (PStr supplier_code) vals in
  let vals := set_if (PyStr.nonempty brand_name) "brand" (PStr brand_name) vals in
  let vals := <["available_in_pos" := PBool available_in_pos]> vals in
  let vals := <["purchase_ok" := PBool purchase_ok]> vals in
  let vals := <["sale_ok" := PBool sale_ok]> vals in
  let vals := <["is_storable" := PBool is_storable_flag]> vals in
  set_if (Py.truthy categ_id) "categ_id" categ_id vals.

(** The category cell: the column [categ_id/id] when the row has it, the
    Spanish header otherwise. *)
Definition category_value (row : gmap string pyval) : string :=
  if bool_decide (is_Some (row !! "categ_id/id"))
  then _safe_str (Py.get row "categ_id/id")
  else _safe_str (Py.get row "categoria de producto / external id").

Definition import_row (self : ProductImporter) (row : gmap string pyval)
    : M string :=
  let default_code := _safe_str (Py.get row "default_code") in
  let name := _safe_str (Py.get row "name") in
  if negb (PyStr.nonempty name) && negb (PyStr.nonempty default_code)
  then mret sin_nombre_ni_codigo else
  categ_id ← ensure_category self (PStr (category_value row));
  let vals := build_vals row categ_id in
  let search_dom :=
    if PyStr.nonempty default_code
    then [("default_code", "=", PStr default_code)]
    else [("name", "=", PStr name)] in
  ids ← search (client self) "product.template" search_dom 1;
  match ids with
  | i :: _ =>
      _ ← write (client self) "product.template" [i] vals;
      mret ("update: " +:+ PyStr.or_else default_code name)
  | [] =>
      _ ← create (client self) "product.template" vals;
      mret ("create: " +:+ PyStr.or_else default_code name)
  end.

(** *** Thread-local importer *)

Definition get_local (tid : nat) : M (option ProductImporter) := fun w =>
  (inr (w_local w !! tid), w).

Definition set_local (tid : nat) (imp : ProductImporter) : M unit := fun w =>
  (inr (), {| w_server := w_server w; w_log := w_log w;
              w_stdout := w_stdout w; w_local := <[tid := imp]> (w_local w) |}).

(** [tid] is the thread that runs the call. *)
Definition get_thread_importer (tid : nat) (base_dir : string)
    : M ProductImporter :=
  cached ← get_local tid;
  match cached with
  | Some importer => mret importer
  | None =>
      client ← OdooClient_init ODOO_URL ODOO_DB ODOO_USER ODOO_PASSWORD;
      let importer := {| client := client; base_dir := base_dir |} in
      _ ← set_local tid importer;
      mret importer
  end.

Definition task : Type := nat * gmap string pyval * string * bool.
Definition result : Type := nat * bool * string.

(** [row = pd.Series(row_dict)] and the body of the [try] block. *)
Definition worker_body (tid : nat) (args : task) : M result :=
  let '(row_index, row_dict, base_dir, dry_run) := args in
  let row := pd_Series row_dict in
  if dry_run then mret (row_index, true, "(dry-run)") else
  importer ← get_thread_importer tid base_dir;
  label ← import_row importer row;
  mret (row_index, true, label).

(** [try: ... except Exception as e: ...] *)
Definition worker_task (tid : nat) (args : task) (w : world) : result * world :=
  let '(row_index, row_dict, _, _) := args in
  match worker_body tid args w with
  | (inr r, w') => (r, w')
  | (inl e, w') =>
      let dc := _safe_str (Py.get row_dict "default_code") in
      let name := _safe_str (Py.get row_dict "name") in
      let msg := "ERROR en "
                 +:+ PyStr.or_else dc (PyStr.or_else name "(sin identificador)")
                 +:+ ": " +:+ e in
      ((row_index, false, msg), w')
  end.

(** *** The thread pool

    A schedule lists, in the order in which they complete, the position of
    each task and the thread that ran it. A thread runs a task to its end
    before the next entry of the schedule starts. Each result is kept in
    the future of its task. *)
Definition schedule : Type := list (nat * nat).

Fixpoint run_pool (tasks : list task) (sched : schedule)
    (futures : gmap nat result) (w : world) : gmap nat result * world :=
  match sched with
  | [] => (futures, w)
  | (i, tid) :: rest =>
      match tasks !! i with
      | Some t =>
          let '(r, w') := worker_task tid t w in
          run_pool tasks rest (<[i := r]> futures) w'
      | None => run_pool tasks rest futures w
      end
  end.

(** [executor.map] hands the results out in the order of the tasks; a
    future that never completes blocks the iteration ([None]). *)
Definition executor_map (tasks : list task) (sched : schedule) (w : world)
    : option (list result) * world :=
  let '(futures, w') := run_pool tasks sched ∅ w in
  (mapM (fun i => futures !! i) (seq 0 (length tasks)), w').

(** *** main, from [records = df.to_dict("records")] on *)

Record tally : Type := {
  ok_count : nat;
  err_count : nat;
  reported : list (nat * bool * string);   (* row_num, ok, msg *)
}.

Definition out (lines : list string) (w : world) : world :=
  {| w_server := w_server w; w_log := w_log w;
     w_stdout := w_stdout w ++ lines; w_local := w_local w |}.

(** One turn of the [for processed, result in enumerate(...)] loop. *)
Definition report_one (total : nat) (acc : tally * world) (r : result)
    : tally * world :=
  let '(t, w) := acc in
  let '(row_index, ok, msg) := r in
  let row_num := (row_index + 1)%nat in
  let head := "[" +:+ pretty row_num +:+ "/" +:+ pretty total +:+ "] " in
  if ok then
    ({| ok_count := ok_count t + 1; err_count := err_count t;
        reported := reported t ++ [(row_num, ok, msg)] |},
     out [head +:+ "OK -> " +:+ msg] w)
  else
    ({| ok_count := ok_count t; err_count := err_count t + 1;
        reported := reported t ++ [(row_num, ok, msg)] |},
     out [head +:+ msg] w).

Inductive outcome : Type :=
| Exit (status : Z)                 (* sys.exit *)
| Uncaught (e : string)             (* an exception left main *)
| Blocked                           (* a future never completed *)
| Finished (t : tally).

Definition main (records : list (gmap string pyval)) (base_dir : string)
    (dry_run : bool) (workers : Z) (sched : schedule) (w : world)
    : outcome * world :=
  let total := length records in
  if (total =? 0)%nat then (Exit 0, out ["No hay filas para procesar."] w) else
  let w := out ["Conectando a Odoo en " +:+ ODOO_URL +:+ " DB=" +:+ ODOO_DB
                +:+ " usuario=" +:+ ODOO_USER +:+ " (workers="
                +:+ pretty workers +:+ ")..."] w in
  let tasks := imap (fun idx rec => (idx, rec, base_dir, dry_run)) records in
  let w := out ["Filas a procesar: " +:+ pretty total;
                "Inicio de importaci" +:+ String "243" "n..." +:+ String "010" ""] w in
  if workers <=? 0 then (Uncaught "max_workers must be greater than 0", w) else
  match executor_map tasks sched w with
  | (None, w) => (Blocked, w)
  | (Some results, w) =>
      let '(t, w) :=
        foldl (report_one total)
              ({| ok_count := 0; err_count := 0; reported := [] |}, w) results in
      (Finished t,
       out [String "010" "============================";
            "FIN DE IMPORTACI" +:+ String "211" "N";
            "Correctos: " +:+ pretty (ok_count t);
            "Errores:   " +:+ pretty (err_count t);
            "============================"] w)
  end.

End Script.

Arguments world : clear implicits.
Arguments M : clear implicits.
Arguments w_server {St}.
Arguments w_log {St}.
Arguments w_stdout {St}.
Arguments w_local {St}.

(** ** Three small servers, used to run the script on concrete rows

    None of them finds fault with the host of an address. *)

(** A database that holds nothing and accepts everything. *)
Definition empty_db : Server unit := {|
  host_error _ := None;
  on_authenticate _ _ _ s := (inr (PInt 2), s);
  on_search _ _ _ s := (inr [], s);
  on_create _ _ s := (inr 1, s);
  on_write _ _ _ s := (inr true, s);
  on_read _ _ _ s := (inr [], s);
|}.

(** A database whose registry answers every search with record 31 and
    every read with one record for each id asked for, bound to category 7,
    and whose other tables are empty. *)
Definition registry_db : Server unit := {|
  host_error _ := None;
  on_authenticate _ _ _ s := (inr (PInt 2), s);
  on_search model _ _ s :=
    (inr (if String.eqb model "ir.model.data" then [31] else []), s);
  on_create _ _ s := (inr 1, s);
  on_write _ _ _ s := (inr true, s);
  on_read _ ids _ s := (inr ((fun _ => {[ "res_id" := PInt 7 ]}) <$> ids), s);
|}.

(** A server that plays back a script of replies, one per call; a call that
    finds no reply of its kind at the head of the script gets the reply of
    [empty_db]. *)
Inductive reply : Type :=
| RFault (e : string)
| RUid (v : pyval)
| RIds (ids : list Z)
| RId (i : Z)
| RDone (b : bool)
| RRecs (recs : list (gmap string pyval)).

Definition scripted : Server (list reply) := {|
  host_error _ := None;
  on_authenticate _ _ _ s :=
    match s with
    | RFault e :: s' => (inl e, s')
    | RUid v :: s' => (inr v, s')
    | _ => (inr (PInt 2), s)
    end;
  on_search _ _ _ s :=
    match s with
    | RFault e :: s' => (inl e, s')
    | RIds ids :: s' => (inr ids, s')
    | _ => (inr [], s)
    end;
  on_create _ _ s :=
    match s with
    | RFault e :: s' => (inl e, s')
    | RId i :: s' => (inr i, s')
    | _ => (inr 1, s)
    end;
  on_write _ _ _ s :=
    match s with
    | RFault e :: s' => (inl e, s')
    | RDone b :: s' => (inr b, s')
    | _ => (inr true, s)
    end;
  on_read _ _ _ s :=
    match s with
    | RFault e :: s' => (inl e, s')
    | RRecs recs :: s' => (inr recs, s')
    | _ => (inr [], s)
    end;
|}.

Definition start {St} (s : St) : world St :=
  {| w_server := s; w_log := []; w_stdout := []; w_local := ∅ |}.

Definition an_importer : ProductImporter :=
  {| client := {| url := "https://odoo.com"; db := "Testing"; user := "admin";
                  password := "admin"; uid := PInt 2 |};
     base_dir := "." |}.

(** The fields that the script handles as booleans, as text and as prices. *)
Definition flag_fields : list string :=
  ["available_in_pos"; "purchase_ok"; "sale_ok"; "is_storable"].

Definition text_fields : list string :=
  ["name"; "default_code"; "supplier_code"; "brand"].

Definition price_fields : list string := ["list_price"; "standard_price"].

(** ** Vocabulary for statements about runs *)

(** The identifier a failure message carries:
    [dc or name or '(sin identificador)']. *)
Definition row_ident (row_dict : gmap string pyval) : string :=
  PyStr.or_else (_safe_str (Py.get row_dict "default_code"))
    (PyStr.or_else (_safe_str (Py.get row_dict "name")) "(sin identificador)").

(** What the loop of [main] reports for a result. *)
Definition row_line (r : nat * bool * string) : nat * bool * string :=
  ((r.1.1 + 1)%nat, r.1.2, r.2).

(** [traces m Φ]: from any world, [m] appends some calls [evs] to the log
    and ends with a result [r] such that [Φ r evs]. *)
Definition traces {St A} (m : M St A) (Φ : string + A -> list event -> Prop)
    : Prop :=
  forall w : world St, exists evs, w_log (m w).2 = w_log w ++ evs /\ Φ (m w).1 evs.

Definition all_answered (evs : list event) : Prop :=
  Forall (fun ev => ev_fault ev = None) evs.

(** A call that faulted is the last call made, and its text is what the
    computation raised. *)
Fixpoint fault_last {A} (r : string + A) (evs : list event) : Prop :=
  match evs with
  | [] => True
  | ev :: rest =>
      match ev_fault ev with
      | None => fault_last r rest
      | Some e => rest = [] /\ r = inl e
      end
  end.

(** [traces_in Inv m Φ]: as [traces], for a server that starts in a state
    of [Inv]; the server is left in a state of [Inv]. *)
Definition traces_in {St A} (Inv : St -> Prop) (m : M St A)
    (Φ : string + A -> list event -> Prop) : Prop :=
  forall w : world St,
    Inv (w_server w) ->
    exists evs, w_log (m w).2 = w_log w ++ evs
                /\ Inv (w_server (m w).2) /\ Φ (m w).1 evs.

(** The calls that category resolution may make: a search with limit 1 on
    the categories or on the registry, and a read of [res_id] from the
    registry. *)
Definition category_lookup (c : call) : bool :=
  match c with
  | Search model _ (Some 1) =>
      String.eqb model "product.category" || String.eqb model "ir.model.data"
  | Read model _ fields =>
      String.eqb model "ir.model.data" && bool_decide (fields = ["res_id"])
  | _ => false
  end.

(** The state in which a call leaves the server. *)
Definition next_state {St} (odoo : Server St) (c : call) (s : St) : St :=
  match c with
  | Authenticate d u p => (on_authenticate odoo d u p s).2
  | Search model dom kwargs => (on_search odoo model dom kwargs s).2
  | Create model vals => (on_create odoo model vals s).2
  | Write model ids vals => (on_write odoo model ids vals s).2
  | Read model ids fields => (on_read odoo model ids fields s).2
  end.

(** Every registry hit leads to a bound id, in the states [Inv] of the
    server: the lookups of category resolution keep the server in these
    states, and there a read of [res_id] for the ids of a hit, when it is
    answered, gives first a record that carries a bound id. *)
Definition registry_bound {St} (odoo : Server St) (Inv : St -> Prop) : Prop :=
  (forall c s, category_lookup c = true -> Inv s -> Inv (next_state odoo c s))
  /\ (forall i ids s recs,
        Inv s ->
        (on_read odoo "ir.model.data" (i :: ids) ["res_id"] s).1 = inr recs ->
        exists r rest, recs = r :: rest /\ Py.truthy (Py.get r "res_id") = true).

(** Why [import_row] can raise: a remote call faulted with the text [e], or
    [int] refused a category token made of digit characters. *)
Definition lookup_failure (token : string) (e : string) (evs : list event) : Prop :=
  (exists c, {| ev_call := c; ev_fault := Some e |} ∈ evs)
  \/ (PyStr.isdigit token = true /\ PyStr.int_of_digits token = inl e).

(** Why the client of a thread cannot be made, the authentication call
    itself being answered or not made: the address of the first proxy is
    refused, before any call; or the server answers the authentication with
    a uid that is falsy, or the address of the second proxy is refused
    after it. [s] is the state in which the server receives the call. *)
Definition client_failure {St} (odoo : Server St) (url db user pw : string)
    (s : St) (e : string) (evs : list event) : Prop :=
  (evs = [] /\ ServerProxy odoo (rstrip_slash url +:+ "/xmlrpc/2/common") = inl e)
  \/ (exists v s',
        ServerProxy odoo (rstrip_slash url +:+ "/xmlrpc/2/common") = inr ()
        /\ on_authenticate odoo db user pw s = (inr v, s')
        /\ evs = [{| ev_call := Authenticate db user pw; ev_fault := None |}]
        /\ ((Py.truthy v = false /\ e = "Error autenticando en Odoo.")
            \/ (Py.truthy v = true
                /\ ServerProxy odoo (rstrip_slash url +:+ "/xmlrpc/2/object") = inl e))).

(** Why a row fails with the text [e], the worker having made the calls
    [evs]: a remote call faulted with that text, all calls before it being
    answered, and it is the last call; or the thread had no importer and
    its client could not be made; or every call was answered and [int]
    refused the category token of the row, made of digit characters. *)
Definition row_failure {St} (odoo : Server St) (url db user pw : string)
    (tid : nat) (row : gmap string pyval) (w : world St) (e : string)
    (evs : list event) : Prop :=
  (exists evs0 c, evs = evs0 ++ [{| ev_call := c; ev_fault := Some e |}]
                  /\ all_answered evs0)
  \/ (w_local w !! tid = None
      /\ client_failure odoo url db user pw (w_server w) e evs)
  \/ (all_answered evs
      /\ PyStr.isdigit (_safe_str (PStr (category_value row))) = true
      /\ PyStr.int_of_digits (_safe_str (PStr (category_value row))) = inl e).

(** The server answers every search, read, create and write. *)
Definition answers {St} (odoo : Server St) : Prop :=
  (forall model dom kwargs s, fault_of (on_search odoo model dom kwargs s).1 = None)
  /\ (forall model ids fields s, fault_of (on_read odoo model ids fields s).1 = None)
  /\ (forall model vals s, fault_of (on_create odoo model vals s).1 = None)
  /\ (forall model ids vals s, fault_of (on_write odoo model ids vals s).1 = None).

(** The thread has its importer, or can make it: the two addresses are
    accepted and the server answers the authentication with a truthy uid. *)
Definition client_ready {St} (odoo : Server St) (url db user pw : string)
    (tid : nat) (w : world St) : Prop :=
  is_Some (w_local w !! tid)
  \/ (ServerProxy odoo (rstrip_slash url +:+ "/xmlrpc/2/common") = inr ()
      /\ ServerProxy odoo (rstrip_slash url +:+ "/xmlrpc/2/object") = inr ()
      /\ exists v s', on_authenticate odoo db user pw (w_server w) = (inr v, s')
                      /\ Py.truthy v = true).

(** A family of postconditions, one for each result type, that is kept by
    sequencing: what holds of each part holds of the whole. *)
Definition post : Type := forall A : Type, string + A -> list event -> Prop.

Record compositional (Φ : post) : Prop := {
  comp_nil : forall A (a : A), Φ A (inr a) [];
  comp_call : forall A c (r : string + A),
    Φ A r [{| ev_call := c; ev_fault := fault_of r |}];
  comp_inl : forall A B e evs, Φ A (inl e) evs -> Φ B (inl e) evs;
  comp_app : forall A B (a : A) (r : string + B) evs1 evs2,
    Φ A (inr a) evs1 -> Φ B r evs2 -> Φ B r (evs1 ++ evs2);
}.

Definition disciplined : post := fun A r evs => fault_last r evs.

Definition caused (token : string) : post := fun A r evs =>
  match r with
  | inr _ => True
  | inl e => lookup_failure token e evs
  end.

(** A text that is empty or whose first character is outside [p]. *)
Definition clean_head (p : ascii -> bool) (s : string) : Prop :=
  match s with
  | EmptyString => True
  | String c _ => p c = false
  end.

(** Every key that [build_vals] can set. *)
Definition value_fields : list string :=
  text_fields ++ ["barcode"] ++ price_fields ++ flag_fields ++ ["categ_id"].

(** Every column that [import_row] and [worker_task] look at. *)
Definition recognized_columns : list string :=
  ["default_code"; "name"; "categ_id/id"; "categoria de producto / external id";
   "supplier_code"; "brand"; "barcode"; "list_price"; "standard_price";
   "available_in_pos"; "purchase_ok"; "sale_ok"; "is_storable"].

(** The calls that change the remote store. *)
Definition is_mutation (c : call) : bool :=
  match c with
  | Create _ _ | Write _ _ _ => true
  | _ => false
  end.

Definition mutations (evs : list event) : list event :=
  filter (fun ev => is_mutation (ev_call ev) = true) evs.

(** What the calls of [import_row] look like: no mutation at all, with no
    other label than the one of a skipped row; or lookups followed by one
    create or write on [product.template], which is the last call and whose
    outcome is the outcome of the row. *)
Definition row_calls (r : string + string) (evs : list event) : Prop :=
  (mutations evs = [] /\ forall label, r = inr label -> label = sin_nombre_ni_codigo)
  \/ exists evs0 ev,
       evs = evs0 ++ [ev] /\ mutations evs0 = [] /\ mutations evs = [ev]
       /\ (exists ids vals, ev_call ev = Create "product.template" vals
                            \/ ev_call ev = Write "product.template" ids vals)
       /\ ev_fault ev = fault_of r.

(** [effects m Φ]: from any world, [m] leaves the thread-local importers as
    they are and prints some lines such that [Φ] holds of its result and of
    these lines. *)
Definition effects {St A} (m : M St A) (Φ : string + A -> list string -> Prop)
    : Prop :=
  forall w : world St,
    w_local (m w).2 = w_local w
    /\ exists lines, w_stdout (m w).2 = w_stdout w ++ lines /\ Φ (m w).1 lines.

(** The warning of [ensure_category] for a token. *)
Definition category_warning (token : string) : string :=
  "[WARN] Categor" +:+ String "237" "a no encontrada: '" +:+ token
  +:+ "'. Usar" +:+ String "225" " 'All'.".

(** The resolver ended with None. *)
Definition unresolved (r : string + pyval) : bool :=
  match r with
  | inr PNone => true
  | _ => false
  end.

(** A line is the warning of [ensure_category] for some token. *)
Definition is_warning (line : string) : Prop :=
  exists token, line = category_warning token.

(** What [main] prints before the pool starts, for each result, and at the
    end. *)
Definition header_lines (url db user : string) (workers : Z) (total : nat)
    : list string :=
  ["Conectando a Odoo en " +:+ url +:+ " DB=" +:+ db
   +:+ " usuario=" +:+ user +:+ " (workers=" +:+ pretty workers +:+ ")...";
   "Filas a procesar: " +:+ pretty total;
   "Inicio de importaci" +:+ String "243" "n..." +:+ String "010" ""].

Definition report_text (total : nat) (r : result) : string :=
  let '(row_index, ok, msg) := r in
  let head := "[" +:+ pretty (row_index + 1)%nat +:+ "/" +:+ pretty total +:+ "] " in
  if ok then head +:+ "OK -> " +:+ msg else head +:+ msg.

Definition summary_lines (t : tally) : list string :=
  [String "010" "============================";
   "FIN DE IMPORTACI" +:+ String "211" "N";
   "Correctos: " +:+ pretty (ok_count t);
   "Errores:   " +:+ pretty (err_count t);
   "============================"].

(** * Properties *)

(** ** Text lemmas *)

Lemma isspace_lower_char c : PyStr.isspace (PyStr.lower_char c) = PyStr.isspace c.
Proof. destruct c as [[] [] [] [] [] [] [] []]; reflexivity. Qed.

Lemma lower_drop_while_isspace s :
  PyStr.lower (PyStr.drop_while PyStr.isspace s)
  = PyStr.drop_while PyStr.isspace (PyStr.lower s).
Proof.
  induction s as [|c s IH]; simpl; [done|].
  rewrite isspace_lower_char. by destruct (PyStr.isspace c).
Qed.

Lemma lower_rev_app s t :
  PyStr.lower (String.rev_app s t) = String.rev_app (PyStr.lower s) (PyStr.lower t).
Proof. revert t. induction s as [|c s IH]; intros t; simpl; [done|]. by rewrite IH. Qed.

Lemma lower_rev s : PyStr.lower (String.rev s) = String.rev (PyStr.lower s).
Proof. apply lower_rev_app. Qed.

Lemma lower_strip s : PyStr.lower (PyStr.strip s) = PyStr.strip (PyStr.lower s).
Proof.
  unfold PyStr.strip, PyStr.strip_with.
  by rewrite lower_rev, lower_drop_while_isspace, lower_rev, lower_drop_while_isspace.
Qed.

(** ** The value map *)

Lemma lookup_set_if (c : bool) (k k' : string) (v : pyval) (m : gmap string pyval) :
  set_if c k v m !! k' = if c && bool_decide (k = k') then Some v else m !! k'.
Proof.
  unfold set_if. destruct c; simpl; [|done].
  case_bool_decide; simplify_map_eq; done.
Qed.

(** Reads a key of [build_vals] off its chain of assignments. *)
Ltac vals_lookup :=
  unfold build_vals;
  repeat first [rewrite lookup_set_if | rewrite lookup_insert | rewrite lookup_empty];
  repeat (rewrite ?andb_false_r, ?andb_true_r;
          match goal with
          | |- context [bool_decide (?a = ?b)] =>
              first [ rewrite (bool_decide_eq_true_2 (a = b)) by reflexivity
                    | rewrite (bool_decide_eq_false_2 (a = b)) by discriminate ]
          | |- context [decide (?a = ?b)] =>
              first [ rewrite (decide_True (P:=(a = b))) by reflexivity
                    | rewrite (decide_False (P:=(a = b))) by discriminate ]
          end); rewrite ?andb_false_r, ?andb_true_r.

Lemma flag_lookup (row : gmap string pyval) (cid : pyval) :
  Forall (fun k => build_vals row cid !! k = Some (PBool (_to_bool (Py.get row k))))
         flag_fields.
Proof. repeat constructor; vals_lookup; reflexivity. Qed.

Lemma to_bool_true_inv v :
  _to_bool v = true ->
  v = PBool true \/ PyStr.lower (PyStr.strip (Py.str v)) ∈ truthy_tokens.
Proof.
  destruct v as [|[]| | |]; simpl; intros H; try discriminate; auto;
    right; by apply bool_decide_eq_true_1 in H.
Qed.

Lemma to_bool_blank v :
  Py.isna v = true \/ v = PStr "" -> _to_bool v = false.
Proof.
  intros [H| ->]; [|reflexivity].
  destruct v as [| | |[]|]; try discriminate; reflexivity.
Qed.

(** C6: the tokens "1", "true", "YES", "x", "S\237" parse to true and "0",
    "false", "", "no" to false; parsing ignores case; a value is true only
    if it is the boolean True or its trimmed lower-case text is in the fixed
    vocabulary, so everything else defaults to false; and the four flags
    [available_in_pos], [purchase_ok], [sale_ok], [is_storable] are present
    in every value map built from a row, as explicit booleans, false when
    the cell is blank. *)
Theorem bool_parsing_and_flags :
  Forall (fun s => _to_bool (PStr s) = true)
         ["1"; "true"; "YES"; "x"; String "S" (String "237" "")]
  /\ Forall (fun s => _to_bool (PStr s) = false) ["0"; "false"; ""; "no"]
  /\ (forall s t, PyStr.lower s = PyStr.lower t -> _to_bool (PStr s) = _to_bool (PStr t))
  /\ (forall v, _to_bool v = true ->
        v = PBool true \/ PyStr.lower (PyStr.strip (Py.str v)) ∈ truthy_tokens)
  /\ (forall (row : gmap string pyval) (cid : pyval),
        Forall (fun k => build_vals row cid !! k
                         = Some (PBool (_to_bool (Py.get row k)))) flag_fields)
  /\ (forall (row : gmap string pyval) (cid : pyval),
        Forall (fun k => Py.isna (Py.get row k) = true \/ Py.get row k = PStr "" ->
                         build_vals row cid !! k = Some (PBool false)) flag_fields).
Proof.
  split; [repeat constructor|].
  split; [repeat constructor|].
  split.
  { intros s t Hst. simpl. by rewrite !lower_strip, Hst. }
  split; [exact to_bool_true_inv|].
  split; [exact flag_lookup|].
  intros row cid. eapply Forall_impl; [apply flag_lookup|].
  simpl. intros k -> Hk. by rewrite to_bool_blank.
Qed.

Lemma bool_parsing_and_flags_witness :
  _to_bool (PStr "Yes") = _to_bool (PStr "yEs")
  /\ (PBool true = PBool true \/ PyStr.lower (PyStr.strip (Py.str (PBool true))) ∈ truthy_tokens)
  /\ build_vals ∅ PNone !! "sale_ok" = Some (PBool false).
Proof.
  destruct bool_parsing_and_flags as (_ & _ & Hcase & Hinv & _ & Hblank).
  split; [apply Hcase; reflexivity|].
  split; [apply Hinv; reflexivity|].
  specialize (Hblank ∅ PNone).
  apply Forall_forall with (x := "sale_ok") in Hblank.
  - apply Hblank. left. reflexivity.
  - unfold flag_fields. set_solver.
Defined.

Lemma text_lookup (row : gmap string pyval) (cid : pyval) :
  Forall (fun k => build_vals row cid !! k
                   = if PyStr.nonempty (_safe_str (Py.get row k))
                     then Some (PStr (_safe_str (Py.get row k))) else None)
         text_fields.
Proof. repeat constructor; vals_lookup; reflexivity. Qed.

Lemma price_lookup (row : gmap string pyval) (cid : pyval) :
  Forall (fun k => build_vals row cid !! k
                   = if PyFloat.truthy (_to_float (Py.get row k))
                     then Some (PFloat (_to_float (Py.get row k))) else None)
         price_fields.
Proof. repeat constructor; vals_lookup; reflexivity. Qed.

(** C5, as stated, fails: a price cell holding the text "0" is not empty,
    yet [list_price] is left out of the map. *)
Lemma nonempty_price_left_out :
  ~ (forall (row : gmap string pyval) (cid : pyval),
       PyStr.nonempty (_safe_str (Py.get row "list_price")) = true ->
       is_Some (build_vals row cid !! "list_price")).
Proof.
  intros H.
  destruct (H {[ "name" := PStr "Widget"; "list_price" := PStr "0" ]} PNone)
    as [v Hv]; [vm_compute; reflexivity|].
  vm_compute in Hv. discriminate.
Qed.

(** C5, amended: a text field (name, default_code, supplier_code, brand) is
    in the map exactly when its trimmed source text is not empty, and then
    holds that text; barcode likewise, unless it reads "nan" in any case; a
    price field (list_price, standard_price) whose cell is not NaN is in the
    map exactly when the cell converts to a number other than zero, so a
    missing, empty, unparseable or zero price is left out; categ_id is in the
    map exactly when the category resolved to an id. *)
Theorem sparse_value_map (row : gmap string pyval) (cid : pyval) :
  Forall (fun k => build_vals row cid !! k
                   = if PyStr.nonempty (_safe_str (Py.get row k))
                     then Some (PStr (_safe_str (Py.get row k))) else None)
         text_fields
  /\ build_vals row cid !! "barcode"
     = (let b := _safe_str (Py.get row "barcode") in
        if PyStr.nonempty b && negb (String.eqb (PyStr.lower b) "nan")
        then Some (PStr b) else None)
  /\ Forall (fun k =>
       Py.get row k <> PFloat FNan ->
       (build_vals row cid !! k
        = if PyFloat.truthy (_to_float (Py.get row k))
          then Some (PFloat (_to_float (Py.get row k))) else None)
       /\ (Py.get row k = PNone \/ Py.get row k = PStr "" ->
           build_vals row cid !! k = None)
       /\ (forall s, Py.get row k = PStr s ->
           PyFloat.of_str (PyStr.replace "," "." s) = None ->
           build_vals row cid !! k = None)
       /\ (forall s neg e, Py.get row k = PStr s ->
           PyFloat.of_str (PyStr.replace "," "." s) = Some (FFin neg 0 e) ->
           build_vals row cid !! k = None))
     price_fields
  /\ build_vals row cid !! "categ_id" = (if Py.truthy cid then Some cid else None).
Proof.
  split; [apply text_lookup|].
  split.
  { vals_lookup. simpl.
    destruct (String.eqb _ "nan"); simpl.
    - by rewrite andb_false_r.
    - by rewrite andb_true_r. }
  split.
  { eapply Forall_impl; [apply (price_lookup row cid)|].
    simpl. intros k Hk _. split; [exact Hk|]. rewrite Hk. clear Hk.
    split; [intros [-> | ->]; reflexivity|].
    split.
    - intros s -> Hs. destruct s; [reflexivity|]. unfold _to_float. simpl Py.str.
      by rewrite Hs.
    - intros s neg e -> Hs. destruct s; [reflexivity|]. unfold _to_float. simpl Py.str.
      by rewrite Hs. }
  vals_lookup. reflexivity.
Qed.

Lemma sparse_value_map_witness :
  let row : gmap string pyval :=
    {[ "name" := PStr "Widget"; "list_price" := PStr "abc";
       "standard_price" := PStr "0,0" ]} in
  build_vals row PNone !! "list_price" = None
  /\ build_vals row PNone !! "standard_price" = None
  /\ build_vals row PNone !! "name" = Some (PStr "Widget").
Proof.
  intros row.
  destruct (sparse_value_map row PNone) as (Htext & _ & Hprice & _).
  split; [|split].
  - apply Forall_forall with (x := "list_price") in Hprice;
      [|unfold price_fields; set_solver].
    destruct Hprice as (_ & _ & Hbad & _); [vm_compute; discriminate|].
    apply (Hbad "abc"); vm_compute; reflexivity.
  - apply Forall_forall with (x := "standard_price") in Hprice;
      [|unfold price_fields; set_solver].
    destruct Hprice as (_ & _ & _ & Hzero); [vm_compute; discriminate|].
    apply (Hzero "0,0" false (-1)); vm_compute; reflexivity.
  - apply Forall_forall with (x := "name") in Htext;
      [|unfold text_fields; set_solver].
    exact Htext.
Defined.

(** ** Reasoning about runs

    The rules follow the shape of a program in [M], so that a proof walks
    the code once, branching where the code or the server branches. *)

Section TraceRules.

Context {St : Type} (odoo : Server St).

Lemma traces_ret {A} (a : A) Φ : Φ (inr a) [] -> traces (St:=St) (ret a) Φ.
Proof. intros H w. exists []. by rewrite app_nil_r. Qed.

Lemma traces_raise {A} e (Φ : string + A -> list event -> Prop) :
  Φ (inl e) [] -> traces (St:=St) (raise e) Φ.
Proof. intros H w. exists []. by rewrite app_nil_r. Qed.

Lemma traces_of_sum {A} (r : string + A) Φ : Φ r [] -> traces (St:=St) (of_sum r) Φ.
Proof. destruct r; [apply traces_raise | apply traces_ret]. Qed.

Lemma traces_print line Φ : Φ (inr ()) [] -> traces (St:=St) (print line) Φ.
Proof. intros H w. exists []. by rewrite app_nil_r. Qed.

Lemma traces_get_local tid Φ :
  (forall cached, Φ (inr cached) []) -> traces (St:=St) (get_local tid) Φ.
Proof. intros H w. exists []. split; [by rewrite app_nil_r | apply H]. Qed.

Lemma traces_set_local tid imp Φ :
  Φ (inr ()) [] -> traces (St:=St) (set_local tid imp) Φ.
Proof. intros H w. exists []. by rewrite app_nil_r. Qed.

Lemma traces_rpc {R} c (h : St -> (string + R) * St) Φ :
  (forall s r s', h s = (r, s') -> Φ r [{| ev_call := c; ev_fault := fault_of r |}]) ->
  traces (rpc c h) Φ.
Proof.
  intros H w. unfold rpc. destruct (h (w_server w)) as [r s'] eqn:Hh.
  eexists. split; [reflexivity|]. by eapply H.
Qed.

Lemma traces_bind {A B} (m : M St A) (k : A -> M St B) Φ :
  traces m (fun r evs1 =>
              match r with
              | inl e => Φ (inl e) evs1
              | inr a => traces (k a) (fun r' evs2 => Φ r' (evs1 ++ evs2))
              end) ->
  traces (bind m k) Φ.
Proof.
  intros H w. unfold bind. destruct (H w) as (evs1 & Hlog & Hm).
  destruct (m w) as [[e|a] w1]; simpl in *.
  - by exists evs1.
  - destruct (Hm w1) as (evs2 & Hlog2 & Hk).
    exists (evs1 ++ evs2). by rewrite Hlog2, Hlog, app_assoc.
Qed.

Lemma traces_mono {A} (m : M St A) (Φ Ψ : string + A -> list event -> Prop) :
  traces m Φ -> (forall r evs, Φ r evs -> Ψ r evs) -> traces m Ψ.
Proof. intros H HΦ w. destruct (H w) as (evs & ? & ?). exists evs. auto. Qed.

Lemma traces_and {A} (m : M St A) (Φ Ψ : string + A -> list event -> Prop) :
  traces m Φ -> traces m Ψ -> traces m (fun r evs => Φ r evs /\ Ψ r evs).
Proof.
  intros H1 H2 w. destruct (H1 w) as (evs & E1 & ?), (H2 w) as (evs' & E2 & ?).
  rewrite E1 in E2. apply app_inv_head in E2 as <-. exists evs. auto.
Qed.

Lemma traces_search self model dom limit Φ :
  (forall s r s',
      on_search odoo model dom (if limit =? 0 then None else Some limit) s = (r, s') ->
      Φ r [{| ev_call := Search model dom (if limit =? 0 then None else Some limit);
              ev_fault := fault_of r |}]) ->
  traces (search odoo self model dom limit) Φ.
Proof. apply traces_rpc. Qed.

Lemma traces_read self model ids fields Φ :
  (forall s r s', on_read odoo model ids fields s = (r, s') ->
      Φ r [{| ev_call := Read model ids fields; ev_fault := fault_of r |}]) ->
  traces (read odoo self model ids fields) Φ.
Proof. apply traces_rpc. Qed.

Lemma traces_create self model vals Φ :
  (forall s r s', on_create odoo model vals s = (r, s') ->
      Φ r [{| ev_call := Create model vals; ev_fault := fault_of r |}]) ->
  traces (create odoo self model vals) Φ.
Proof. apply traces_rpc. Qed.

Lemma traces_write self model ids vals Φ :
  (forall s r s', on_write odoo model ids vals s = (r, s') ->
      Φ r [{| ev_call := Write model ids vals; ev_fault := fault_of r |}]) ->
  traces (write odoo self model ids vals) Φ.
Proof. apply traces_rpc. Qed.

Lemma traces_authenticate d u p Φ :
  (forall s r s', on_authenticate odoo d u p s = (r, s') ->
      Φ r [{| ev_call := Authenticate d u p; ev_fault := fault_of r |}]) ->
  traces (rpc (Authenticate d u p) (on_authenticate odoo d u p)) Φ.
Proof. apply traces_rpc. Qed.

End TraceRules.

(** One step of a walk through a program in [M]. *)
Ltac walk_step :=
  lazymatch goal with
  | |- traces (mbind _ _) _ => apply traces_bind
  | |- traces (bind _ _) _ => apply traces_bind
  | |- traces (mret _) _ => apply traces_ret
  | |- traces (ret _) _ => apply traces_ret
  | |- traces (raise _) _ => apply traces_raise
  | |- traces (of_sum _) _ => apply traces_of_sum
  | |- traces (print _) _ => apply traces_print
  | |- traces (get_local _) _ => apply traces_get_local; intros ?
  | |- traces (set_local _ _) _ => apply traces_set_local
  | |- traces (search _ _ _ _ _) _ => apply traces_search; intros ? [?|[|? ?]] ? ?
  | |- traces (read _ _ _ _ _) _ => apply traces_read; intros ? [?|[|? ?]] ? ?
  | |- traces (create _ _ _ _) _ => apply traces_create; intros ? [?|?] ? ?
  | |- traces (write _ _ _ _ _) _ => apply traces_write; intros ? [?|?] ? ?
  | |- traces (rpc (Authenticate _ _ _) _) _ =>
      apply traces_authenticate; intros ? [?|?] ? ?
  | |- traces (if ?b then _ else _) _ => destruct b eqn:?
  | |- traces (match ?x with _ => _ end) _ => destruct x eqn:?
  | |- traces (let '(_, _) := ?x in _) _ => destruct x eqn:?
  | |- match ?r with inl _ => _ | inr _ => _ end => destruct r eqn:?
  end; cbv beta iota.

Ltac walk := cbv beta iota; repeat walk_step; cbn [app length].

(** *** Category resolution: how many calls *)

Lemma isdigit_char_not_dot c : PyStr.isdigit_char c = true -> Ascii.eqb "." c = false.
Proof. destruct c as [[] [] [] [] [] [] [] []]; vm_compute; congruence. Qed.

Lemma isdigit_no_dot s : PyStr.isdigit s = true -> PyStr.contains "." s = false.
Proof.
  unfold PyStr.isdigit. intros [_ H]%andb_true_iff.
  induction s as [|c s IH]; [done|].
  cbn [PyStr.contains PyStr.all_chars] in *. apply andb_true_iff in H as [Hc Hs].
  rewrite (isdigit_char_not_dot c Hc). auto.
Qed.

Lemma ensure_category_at_most_5 {St} (odoo : Server St) self value :
  traces (ensure_category odoo self value) (fun _ evs => length evs <= 5)%nat.
Proof.
  unfold ensure_category, read_res_id.
  destruct (PyStr.isdigit (_safe_str value)) eqn:Hd.
  - rewrite (isdigit_no_dot _ Hd). walk; lia.
  - walk; lia.
Qed.

(** The rules of [traces], for a server that stays in the states [Inv]
    and whose registry hits lead to a bound id there. *)
Section TraceRulesIn.

Context {St : Type} (odoo : Server St) (Inv : St -> Prop).

Lemma traces_in_ret {A} (a : A) Φ : Φ (inr a) [] -> traces_in Inv (ret a) Φ.
Proof. intros H w Hw. exists []. by rewrite app_nil_r. Qed.

Lemma traces_in_raise {A} e (Φ : string + A -> list event -> Prop) :
  Φ (inl e) [] -> traces_in Inv (raise e) Φ.
Proof. intros H w Hw. exists []. by rewrite app_nil_r. Qed.

Lemma traces_in_of_sum {A} (r : string + A) Φ :
  Φ r [] -> traces_in Inv (of_sum r) Φ.
Proof. destruct r; [apply traces_in_raise | apply traces_in_ret]. Qed.

Lemma traces_in_print line Φ : Φ (inr ()) [] -> traces_in Inv (print line) Φ.
Proof. intros H w Hw. exists []. by rewrite app_nil_r. Qed.

Lemma traces_in_bind {A B} (m : M St A) (k : A -> M St B) Φ :
  traces_in Inv m (fun r evs1 =>
                     match r with
                     | inl e => Φ (inl e) evs1
                     | inr a => traces_in Inv (k a) (fun r' evs2 => Φ r' (evs1 ++ evs2))
                     end) ->
  traces_in Inv (bind m k) Φ.
Proof.
  intros H w Hw. unfold bind. destruct (H w Hw) as (evs1 & Hlog & Hw1 & Hm).
  destruct (m w) as [[e|a] w1]; simpl in *.
  - by exists evs1.
  - destruct (Hm w1 Hw1) as (evs2 & Hlog2 & Hw2 & Hk).
    exists (evs1 ++ evs2). by rewrite Hlog2, Hlog, app_assoc.
Qed.

Hypothesis bound : registry_bound odoo Inv.

Lemma traces_in_search self model dom Φ :
  String.eqb model "product.category" || String.eqb model "ir.model.data" = true ->
  (forall r, Φ r [{| ev_call := Search model dom (Some 1); ev_fault := fault_of r |}]) ->
  traces_in Inv (search odoo self model dom 1) Φ.
Proof.
  intros Hmodel H w Hw. unfold search, rpc. cbn [Z.eqb].
  pose proof (proj1 bound (Search model dom (Some 1)) (w_server w) Hmodel Hw) as Hs.
  cbn [next_state] in Hs.
  destruct (on_search odoo model dom (Some 1) (w_server w)) as [r s'].
  eexists. split; [reflexivity|]. split; [exact Hs | apply H].
Qed.

Lemma traces_in_read self i ids Φ :
  (forall e, Φ (inl e) [{| ev_call := Read "ir.model.data" (i :: ids) ["res_id"];
                           ev_fault := Some e |}]) ->
  (forall r rest,
     Py.truthy (Py.get r "res_id") = true ->
     Φ (inr (r :: rest)) [{| ev_call := Read "ir.model.data" (i :: ids) ["res_id"];
                             ev_fault := None |}]) ->
  traces_in Inv (read odoo self "ir.model.data" (i :: ids) ["res_id"]) Φ.
Proof.
  intros He Hr w Hw. unfold read, rpc.
  pose proof (proj1 bound (Read "ir.model.data" (i :: ids) ["res_id"]) (w_server w)
                eq_refl Hw) as Hs.
  pose proof (proj2 bound i ids (w_server w)) as Hrecs.
  cbn [next_state] in Hs.
  destruct (on_read odoo "ir.model.data" (i :: ids) ["res_id"] (w_server w))
    as [[e|recs] s'].
  - eexists. split; [reflexivity|]. split; [exact Hs | apply He].
  - destruct (Hrecs recs Hw eq_refl) as (r & rest & -> & Ht).
    eexists. split; [reflexivity|]. split; [exact Hs | by apply Hr].
Qed.

End TraceRulesIn.

Ltac walk_in_step Hb :=
  lazymatch goal with
  | |- traces_in _ (mbind _ _) _ => apply traces_in_bind
  | |- traces_in _ (bind _ _) _ => apply traces_in_bind
  | |- traces_in _ (mret _) _ => apply traces_in_ret
  | |- traces_in _ (ret _) _ => apply traces_in_ret
  | |- traces_in _ (raise _) _ => apply traces_in_raise
  | |- traces_in _ (of_sum _) _ => apply traces_in_of_sum
  | |- traces_in _ (print _) _ => apply traces_in_print
  | |- traces_in _ (search _ _ _ _ _) _ =>
      apply (traces_in_search _ _ Hb); [reflexivity | intros [?|[|? ?]]]
  | |- traces_in _ (read _ _ _ _ _) _ =>
      apply (traces_in_read _ _ Hb); [intros ? | intros ? ? ?]
  | |- traces_in _ (if ?b then _ else _) _ => destruct b eqn:?
  | |- traces_in _ (match ?x with _ => _ end) _ => destruct x eqn:?
  | |- traces_in _ (let '(_, _) := ?x in _) _ => destruct x eqn:?
  | |- match ?r with inl _ => _ | inr _ => _ end => destruct r eqn:?
  end; cbv beta iota.

Ltac walk_in Hb := cbv beta iota; repeat walk_in_step Hb; cbn [app length].

Lemma ensure_category_at_most_3 {St} (odoo : Server St) Inv self value :
  registry_bound odoo Inv ->
  traces_in Inv (ensure_category odoo self value) (fun _ evs => length evs <= 3)%nat.
Proof.
  intros Hb. unfold ensure_category, read_res_id.
  destruct (PyStr.isdigit (_safe_str value)) eqn:Hd.
  - rewrite (isdigit_no_dot _ Hd). walk_in Hb; first [lia | congruence].
  - walk_in Hb; first [lia | congruence].
Qed.



Lemma registry_db_bound : registry_bound registry_db (fun _ => True).
Proof.
  split; [done|]. intros i ids s recs _ [= <-]. eexists _, _. split; reflexivity.
Qed.


(** *** Category resolution: the precedence of the strategies *)

Section Equations.

Context {St : Type}.

Lemma bind_cong {A B} (m m' : M St A) (k k' : A -> M St B) w :
  (forall w, m w = m' w) -> (forall a w, k a w = k' a w) ->
  bind m k w = bind m' k' w.
Proof.
  intros Hm Hk. unfold bind. rewrite Hm.
  destruct (m' w) as [[e|a] w']; [reflexivity | apply Hk].
Qed.

Lemma bind_assoc {A B C} (m : M St A) (k : A -> M St B) (h : B -> M St C) w :
  bind (bind m k) h w = bind m (fun a => bind (k a) h) w.
Proof. unfold bind. by destruct (m w) as [[e|a] w']. Qed.

End Equations.

(** Reading the bound id after a registry hit, in the script and in the
    strategy of the specification. *)
Lemma registry_lookup_eq {St} (odoo : Server St) self dom w :
  bind (search odoo (client self) "ir.model.data" dom 1)
       (fun ids => match ids with
                   | _ :: _ => read_res_id odoo self ids
                   | [] => ret None
                   end) w
  = registry_id odoo self dom w.
Proof.
  unfold registry_id, read_res_id, mbind, M_bind, mret, M_ret.
  apply bind_cong; [reflexivity|]. intros [|i ids] w'; [reflexivity|].
  rewrite bool_decide_eq_false_2 by discriminate.
  apply bind_cong; [reflexivity|]. intros [|r rest] w''; [reflexivity|].
  simpl. by destruct (Py.truthy (Py.get r "res_id")).
Qed.

Lemma all_decimal_all_digit s :
  PyStr.all_chars PyStr.isdecimal s = true -> PyStr.all_chars PyStr.isdigit_char s = true.
Proof.
  induction s as [|c s IH]; [done|].
  cbn [PyStr.all_chars]. intros [Hc Hs]%andb_true_iff.
  rewrite IH by done. unfold PyStr.isdigit_char. by rewrite Hc.
Qed.

(** A token that [int] accepts is a literal id, with the same value. *)
Lemma literal_id_int token n :
  PyStr.nonempty token = true -> PyStr.int_of_digits token = inr n ->
  literal_id token = Some n.
Proof.
  intros Hne. unfold PyStr.int_of_digits, literal_id. rewrite Hne.
  destruct (_ <? _)%nat; [discriminate|].
  destruct (PyStr.all_chars PyStr.isdecimal token); [|discriminate].
  by intros [= <-].
Qed.

Lemma literal_id_isdigit token :
  PyStr.isdigit token = false -> literal_id token = None.
Proof.
  unfold PyStr.isdigit, literal_id. destruct (PyStr.nonempty token); [|done].
  cbn [andb]. intros Hd.
  destruct (PyStr.all_chars PyStr.isdecimal token) eqn:E; [|done].
  apply all_decimal_all_digit in E. congruence.
Qed.

(** On a token that [int] does not refuse, the script is the chain of the
    four strategies. *)
Lemma ensure_category_precedence {St} (odoo : Server St) self value w :
  (PyStr.isdigit (_safe_str value) = true ->
   exists n, PyStr.int_of_digits (_safe_str value) = inr n) ->
  ensure_category odoo self value w = resolve_by_precedence odoo self value w.
Proof.
  intros Hint. unfold ensure_category, resolve_by_precedence.
  destruct (PyStr.nonempty (_safe_str value)) eqn:Hne; [|reflexivity].
  cbn [negb strategies first_id]. unfold mbind, M_bind, mret, M_ret.
  rewrite bind_assoc. apply bind_cong.
  { intros w1. unfold by_numeric_id, mbind, M_bind, mret, M_ret.
    destruct (PyStr.isdigit (_safe_str value)) eqn:Hd.
    - destruct Hint as [n Hn]; [done|].
      rewrite Hn, (literal_id_int _ n Hne Hn).
      unfold of_sum. unfold bind at 1. unfold ret at 1.
      apply bind_cong; [reflexivity|]. by intros [|i ids] w3.
    - by rewrite (literal_id_isdigit _ Hd). }
  intros [v|] w1; [reflexivity|].
  rewrite bind_assoc. apply bind_cong.
  { intros w2. unfold by_qualified_external_id.
    destruct (PyStr.contains "." (_safe_str value)); [|reflexivity].
    destruct (PyStr.split1 "." (_safe_str value)) as [module name].
    apply registry_lookup_eq. }
  intros [v|] w2; [reflexivity|].
  rewrite (bind_assoc (by_bare_external_id odoo self (_safe_str value))).
  rewrite <- bind_assoc. apply bind_cong.
  { intros w3. apply registry_lookup_eq. }
  intros [v|] w4; [reflexivity|].
  rewrite bind_assoc. unfold by_display_name, mbind, M_bind, mret, M_ret.
  rewrite bind_assoc. apply bind_cong; [reflexivity|].
  by intros [|i ids'] w5.
Qed.

(** C3: the script departs from the precedence on a token made of digit
    characters that [int] refuses, such as the superscript two: [isdigit]
    lets the token into the first strategy, [int] raises there, and the
    resolution ends with that exception before any remote call, whatever
    the server holds; the strategies that follow, the display name among
    them, are not tried. *)
Theorem digit_token_refused_by_int {St} (odoo : Server St) self value
    (w : world St) e :
  PyStr.isdigit (_safe_str value) = true ->
  PyStr.int_of_digits (_safe_str value) = inl e ->
  ensure_category odoo self value w = (inl e, w).
Proof.
  intros Hd He. unfold ensure_category.
  assert (PyStr.nonempty (_safe_str value) = true) as ->.
  { unfold PyStr.isdigit in Hd. by apply andb_true_iff in Hd as [? _]. }
  rewrite Hd, He. reflexivity.
Qed.

Lemma digit_token_refused_by_int_witness :
  let s := [RIds []; RIds [7]] in
  let token := PStr (String "178" "") in
  ensure_category scripted an_importer token (start s)
  = (inl ("invalid literal for int() with base 10: '" +:+ String "178" "'"), start s)
  /\ (resolve_by_precedence scripted an_importer token (start s)).1 = inr (PInt 7).
Proof.
  intros s token. split.
  - apply digit_token_refused_by_int; vm_compute; reflexivity.
  - vm_compute. reflexivity.
Defined.

(** X16: on every token that [int] does not refuse, category resolution is
    the chain of the four strategies (numeric id confirmed by a search,
    qualified external id, bare external id, display name), in that order,
    stopping at the first that yields an id. A numeric token whose id the
    category search confirms resolves to that id after this single call,
    whatever the registry holds; a token for which the first three
    strategies are tried and yield nothing resolves to the id that the
    display-name search finds. *)
Theorem precedence_of_accepted_tokens {St} (odoo : Server St) self value :
  let token := _safe_str value in
  (PyStr.isdigit token = true -> exists n, PyStr.int_of_digits token = inr n) ->
  (forall w, ensure_category odoo self value w
             = resolve_by_precedence odoo self value w)
  /\ (forall w n i ids s',
        PyStr.isdigit token = true ->
        PyStr.int_of_digits token = inr n ->
        on_search odoo "product.category" [("id", "=", PInt n)] (Some 1) (w_server w)
        = (inr (i :: ids), s') ->
        ensure_category odoo self value w
        = (inr (PInt i),
           logged w (Search "product.category" [("id", "=", PInt n)] (Some 1)) None s'))
  /\ (forall w w1 w2 w3 w4 id,
        PyStr.nonempty token = true ->
        by_numeric_id odoo self token w = (inr None, w1) ->
        by_qualified_external_id odoo self token w1 = (inr None, w2) ->
        by_bare_external_id odoo self token w2 = (inr None, w3) ->
        by_display_name odoo self token w3 = (inr (Some id), w4) ->
        ensure_category odoo self value w = (inr id, w4)).
Proof.
  intros token Hint. split; [intros w; by apply ensure_category_precedence|]. split.
  - intros w n i ids s' Hd Hn Hs. rewrite ensure_category_precedence by done.
    unfold resolve_by_precedence. fold token.
    assert (PyStr.nonempty token = true) as Hne.
    { unfold PyStr.isdigit in Hd. by apply andb_true_iff in Hd as [? _]. }
    rewrite Hne. cbn [strategies first_id]. unfold by_numeric_id.
    rewrite (literal_id_int _ n Hne Hn).
    unfold mbind, M_bind, mret, M_ret, bind, ret, search, rpc.
    cbn [Z.eqb]. rewrite Hs. reflexivity.
  - intros w w1 w2 w3 w4 id Hne H1 H2 H3 H4. rewrite ensure_category_precedence by done.
    unfold resolve_by_precedence. fold token. rewrite Hne.
    cbn [strategies first_id]. unfold mbind, M_bind, mret, M_ret, bind, ret.
    by rewrite H1, H2, H3, H4.
Qed.

Lemma precedence_of_accepted_tokens_witness :
  ensure_category scripted an_importer (PStr "5")
    (start [RIds [5]; RIds [31]; RRecs [ {[ "res_id" := PInt 9 ]} ]])
  = (inr (PInt 5),
     logged (start [RIds [5]; RIds [31]; RRecs [ {[ "res_id" := PInt 9 ]} ]])
       (Search "product.category" [("id", "=", PInt 5)] (Some 1)) None
       [RIds [31]; RRecs [ {[ "res_id" := PInt 9 ]} ]])
  /\ (ensure_category scripted an_importer (PStr "Furniture") (start [RIds []; RIds [7]])).1
     = inr (PInt 7).
Proof.
  destruct (precedence_of_accepted_tokens scripted an_importer (PStr "5"))
    as (_ & Hnum & _); [by exists 5|].
  destruct (precedence_of_accepted_tokens scripted an_importer (PStr "Furniture"))
    as (_ & _ & Hname); [discriminate|].
  split.
  - apply (Hnum _ 5 5 []); reflexivity.
  - erewrite Hname; [reflexivity | reflexivity | reflexivity | reflexivity | |];
      vm_compute; reflexivity.
Defined.

(** *** Postconditions kept by sequencing *)

Section Compositional.

Context {St : Type} (odoo : Server St) (Φ : post) (HΦ : compositional Φ).

Lemma comp_ret {A} (a : A) : traces (St:=St) (ret a) (Φ A).
Proof. apply traces_ret, HΦ. Qed.

Lemma comp_print line : traces (St:=St) (print line) (Φ unit).
Proof. apply traces_print, HΦ. Qed.

Lemma comp_get_local tid : traces (St:=St) (get_local tid) (Φ _).
Proof. apply traces_get_local. intros. apply HΦ. Qed.

Lemma comp_set_local tid imp : traces (St:=St) (set_local tid imp) (Φ _).
Proof. apply traces_set_local, HΦ. Qed.

Lemma comp_rpc {R} c (h : St -> (string + R) * St) : traces (rpc c h) (Φ R).
Proof. apply traces_rpc. intros. apply HΦ. Qed.

Lemma comp_bind {A B} (m : M St A) (k : A -> M St B) :
  traces m (Φ A) -> (forall a, traces (k a) (Φ B)) -> traces (bind m k) (Φ B).
Proof.
  intros Hm Hk. apply traces_bind. eapply traces_mono; [exact Hm|].
  intros [e|a] evs1 H1; [by eapply comp_inl|].
  eapply traces_mono; [apply Hk|]. intros r evs2 H2. by eapply comp_app.
Qed.

End Compositional.

(** Walks a program, leaving the places where it raises by itself. *)
Ltac comp_step H :=
  lazymatch goal with
  | |- traces (mbind _ _) _ => apply (comp_bind _ H); [|intros ?]
  | |- traces (bind _ _) _ => apply (comp_bind _ H); [|intros ?]
  | |- traces (mret _) _ => apply (comp_ret _ H)
  | |- traces (ret _) _ => apply (comp_ret _ H)
  | |- traces (print _) _ => apply (comp_print _ H)
  | |- traces (get_local _) _ => apply (comp_get_local _ H)
  | |- traces (set_local _ _) _ => apply (comp_set_local _ H)
  | |- traces (search _ _ _ _ _) _ => apply (comp_rpc _ H)
  | |- traces (read _ _ _ _ _) _ => apply (comp_rpc _ H)
  | |- traces (create _ _ _ _) _ => apply (comp_rpc _ H)
  | |- traces (write _ _ _ _ _) _ => apply (comp_rpc _ H)
  | |- traces (rpc _ _) _ => apply (comp_rpc _ H)
  | |- traces (raise _) _ => apply traces_raise
  | |- traces (of_sum _) _ => apply traces_of_sum
  | |- traces (if ?b then _ else _) _ => destruct b
  | |- traces (match ?x with _ => _ end) _ => destruct x
  | |- traces (let '(_, _) := ?x in _) _ => destruct x
  end.

Ltac comp_walk H := repeat comp_step H.

Lemma fault_last_app {A B} (a : A) (r : string + B) evs1 evs2 :
  fault_last (inr a) evs1 -> fault_last r evs2 -> fault_last r (evs1 ++ evs2).
Proof.
  intros H1 H2. induction evs1 as [|ev evs1 IH]; [done|].
  simpl in *. destruct (ev_fault ev); [by destruct H1|auto].
Qed.

Lemma fault_last_inl {A B} e evs :
  fault_last (inl e : string + A) evs -> fault_last (inl e : string + B) evs.
Proof.
  induction evs as [|ev evs IH]; [done|].
  simpl. destruct (ev_fault ev); [|done]. intros [-> [= ->]]. done.
Qed.

Lemma disciplined_compositional : compositional disciplined.
Proof.
  split; unfold disciplined.
  - done.
  - intros A c [e|a]; simpl; auto.
  - intros A B e evs. apply fault_last_inl.
  - intros A B a r evs1 evs2. apply fault_last_app.
Qed.

Lemma lookup_failure_app token e evs1 evs2 :
  lookup_failure token e evs2 -> lookup_failure token e (evs1 ++ evs2).
Proof.
  intros [[c H]|H]; [left|by right]. exists c. set_solver.
Qed.

Lemma caused_compositional token : compositional (caused token).
Proof.
  split; unfold caused.
  - done.
  - intros A c [e|a]; [|done]. left. exists c. set_solver.
  - done.
  - intros A B a [e|b] evs1 evs2 _; [apply lookup_failure_app|done].
Qed.

Lemma ensure_category_compositional {St} (odoo : Server St) Φ self value :
  compositional Φ ->
  (forall e, PyStr.isdigit (_safe_str value) = true ->
             PyStr.int_of_digits (_safe_str value) = inl e -> Φ Z (inl e) []) ->
  traces (ensure_category odoo self value) (Φ pyval).
Proof.
  intros H Hint. unfold ensure_category, read_res_id.
  destruct (PyStr.isdigit (_safe_str value)) eqn:Hd; comp_walk H.
  destruct (PyStr.int_of_digits (_safe_str value)) eqn:E; [by apply Hint | apply H].
Qed.

Lemma import_row_compositional {St} (odoo : Server St) Φ self row :
  compositional Φ ->
  (forall e, PyStr.isdigit (_safe_str (PStr (category_value row))) = true ->
             PyStr.int_of_digits (_safe_str (PStr (category_value row))) = inl e ->
             Φ Z (inl e) []) ->
  traces (import_row odoo self row) (Φ string).
Proof.
  intros H Hint. unfold import_row. comp_walk H.
  by apply ensure_category_compositional.
Qed.

Lemma worker_body_compositional {St} (odoo : Server St) url db user pw Φ tid
    idx row base dry :
  compositional Φ ->
  (forall A e, Φ A (inl e) []) ->
  traces (worker_body odoo url db user pw tid (idx, row, base, dry)) (Φ _).
Proof.
  intros H Hraise. unfold worker_body, get_thread_importer, OdooClient_init.
  comp_walk H;
    try match goal with
        | |- Φ _ (ServerProxy ?o ?u) [] =>
            destruct (ServerProxy o u); [apply Hraise | apply H]
        end;
    try apply Hraise.
  apply import_row_compositional; auto.
Qed.

(** What a successful body returns. *)
Lemma worker_body_inr {St} (odoo : Server St) url db user pw tid idx row base dry
    (w w' : world St) r :
  worker_body odoo url db user pw tid (idx, row, base, dry) w = (inr r, w') ->
  exists label, r = (idx, true, label).
Proof.
  unfold worker_body, mbind, M_bind, mret, M_ret, bind, ret.
  destruct dry; [intros [= <- _]; eauto|].
  destruct (get_thread_importer _ _ _ _ _ _ _ w) as [[e|imp] w1]; [discriminate|].
  destruct (import_row _ _ _ w1) as [[e|label] w2]; [discriminate|].
  intros [= <- _]. eauto.
Qed.

Lemma fault_last_inr {A} (a : A) evs : fault_last (inr a) evs -> all_answered evs.
Proof.
  induction evs as [|ev evs IH]; [constructor|].
  simpl. destruct (ev_fault ev) eqn:E; [by intros [_ [=]]|].
  intros H. constructor; [done | by apply IH].
Qed.

Lemma fault_last_raised {A} e evs :
  fault_last (inl e : string + A) evs ->
  all_answered evs
  \/ exists evs0 c, evs = evs0 ++ [{| ev_call := c; ev_fault := Some e |}]
                    /\ all_answered evs0.
Proof.
  induction evs as [|ev evs IH]; [left; constructor|].
  simpl. destruct (ev_fault ev) eqn:E.
  - intros [-> [= ->]]. right. exists [], (ev_call ev). split; [|constructor].
    destruct ev; simpl in *; by subst.
  - intros [Ha | (evs0 & c & -> & Ha)]%IH.
    + left. by constructor.
    + right. exists (ev :: evs0), c. split; [done|]. by constructor.
Qed.

(** C10: the worker always returns a result for its own row index, so no
    exception leaves it. Whatever is raised while the row is processed is
    turned into a failure whose message carries the identifier of the row
    (code, else name, else "(sin identificador)") and the text of the error.
    A remote call that faults is the last call made for the row (the row is
    neither retried nor continued), every call before it was answered, and
    its fault text is the one reported; a successful row had every call
    answered. The pool goes on with the next entry of the schedule with the
    world the worker left. *)
Theorem worker_captures_failures {St} (odoo : Server St) url db user pw tid
    idx row base dry (w : world St) :
  exists ok msg w' evs,
    worker_task odoo url db user pw tid (idx, row, base, dry) w = ((idx, ok, msg), w')
    /\ w_log w' = w_log w ++ evs
    /\ (forall e w1,
          worker_body odoo url db user pw tid (idx, row, base, dry) w = (inl e, w1) ->
          ok = false /\ msg = "ERROR en " +:+ row_ident row +:+ ": " +:+ e /\ w' = w1)
    /\ ((ok = true /\ all_answered evs)
        \/ (ok = false
            /\ exists e, msg = "ERROR en " +:+ row_ident row +:+ ": " +:+ e
               /\ (all_answered evs
                   \/ exists evs0 c,
                        evs = evs0 ++ [{| ev_call := c; ev_fault := Some e |}]
                        /\ all_answered evs0)))
    /\ (forall (tasks : list task) i rest futures,
          tasks !! i = Some ((idx, row, base, dry) : task) ->
          run_pool odoo url db user pw tasks ((i, tid) :: rest) futures w
          = run_pool odoo url db user pw tasks rest (<[i := (idx, ok, msg)]> futures) w').
Proof.
  destruct (worker_body_compositional odoo url db user pw disciplined tid idx row
              base dry disciplined_compositional) with (w := w) as (evs & Hlog & Hfl);
    [done | ].
  pose proof (worker_body_inr odoo url db user pw tid idx row base dry w) as Hinr.
  unfold worker_task.
  destruct (worker_body odoo url db user pw tid (idx, row, base, dry) w)
    as [[e|r] w1] eqn:Hbody; simpl in Hlog, Hfl.
  - eexists false, _, w1, evs. split; [reflexivity|]. split; [done|].
    split; [by intros e' w2 [= <- <-]|]. split.
    + right. split; [done|]. exists e. split; [done|].
      by apply (fault_last_raised (A:=result)).
    + intros tasks i rest futures Ht. cbn [run_pool]. rewrite Ht.
      unfold worker_task. by rewrite Hbody.
  - destruct (Hinr w1 r eq_refl) as [label ->].
    exists true, label, w1, evs. split; [reflexivity|]. split; [done|].
    split; [by intros e' w2 [=]|]. split.
    + left. split; [done|]. by eapply fault_last_inr.
    + intros tasks i rest futures Ht. cbn [run_pool]. rewrite Ht.
      unfold worker_task. by rewrite Hbody.
Qed.

Lemma worker_captures_failures_witness :
  (worker_task scripted "https://odoo.com" "Testing" "admin" "admin" 0
     (3%nat, {[ "name" := PStr "Widget" ]}, ".", false)
     (start [RUid (PInt 2); RFault "timeout"])).1
  = (3%nat, false, "ERROR en Widget: timeout").
Proof.
  destruct (worker_captures_failures scripted "https://odoo.com" "Testing" "admin"
              "admin" 0 3%nat {[ "name" := PStr "Widget" ]} "." false
              (start [RUid (PInt 2); RFault "timeout"]))
    as (ok & msg & w' & evs & Hrun & _ & Hraise & _).
  rewrite Hrun.
  edestruct (Hraise "timeout") as (-> & -> & _); [vm_compute; reflexivity|].
  vm_compute. reflexivity.
Defined.

(** ** The importer of a thread *)

Lemma get_thread_importer_cached {St} (odoo : Server St) url db user pw tid base
    (w : world St) imp :
  w_local w !! tid = Some imp ->
  get_thread_importer odoo url db user pw tid base w = (inr imp, w).
Proof.
  intros Himp.
  unfold get_thread_importer, get_local, mbind, M_bind, mret, M_ret, bind, ret.
  by rewrite Himp.
Qed.

(** A thread without importer: its first call of [get_thread_importer],
    step by step. *)
Lemma get_thread_importer_None {St} (odoo : Server St) url db user pw tid base
    (w : world St) :
  w_local w !! tid = None ->
  get_thread_importer odoo url db user pw tid base w
  = match ServerProxy odoo (rstrip_slash url +:+ "/xmlrpc/2/common") with
    | inl e => (inl e, w)
    | inr _ =>
        match on_authenticate odoo db user pw (w_server w) with
        | (inl e, s) => (inl e, logged w (Authenticate db user pw) (Some e) s)
        | (inr v, s) =>
            let w1 := logged w (Authenticate db user pw) None s in
            if Py.truthy v then
              match ServerProxy odoo (rstrip_slash url +:+ "/xmlrpc/2/object") with
              | inl e => (inl e, w1)
              | inr _ =>
                  let importer :=
                    {| client := {| url := rstrip_slash url; db := db; user := user;
                                    password := pw; uid := v |};
                       base_dir := base |} in
                  (inr importer,
                   {| w_server := s; w_log := w_log w1; w_stdout := w_stdout w;
                      w_local := <[tid := importer]> (w_local w) |})
              end
            else (inl "Error autenticando en Odoo.", w1)
        end
    end.
Proof.
  intros Hnone.
  unfold get_thread_importer, OdooClient_init, get_local, set_local, rpc, of_sum,
    mbind, M_bind, mret, M_ret, bind, ret, raise.
  rewrite Hnone.
  destruct (ServerProxy odoo (rstrip_slash url +:+ "/xmlrpc/2/common")) as [e|[]];
    [done|].
  destruct (on_authenticate odoo db user pw (w_server w)) as [[e|v] s]; [done|].
  cbn [fault_of]. destruct (Py.truthy v); cbn [negb]; [|done].
  by destruct (ServerProxy odoo (rstrip_slash url +:+ "/xmlrpc/2/object")) as [e|[]].
Qed.

(** The same, by what comes out of it. *)
Lemma get_thread_importer_fresh {St} (odoo : Server St) url db user pw tid base
    (w : world St) :
  w_local w !! tid = None ->
  let out := get_thread_importer odoo url db user pw tid base w in
  exists evs,
    w_log out.2 = w_log w ++ evs
    /\ w_stdout out.2 = w_stdout w
    /\ match out.1 with
       | inr imp =>
           evs = [{| ev_call := Authenticate db user pw; ev_fault := None |}]
           /\ w_local out.2 = <[tid := imp]> (w_local w)
           /\ base_dir imp = base
           /\ client imp = {| url := rstrip_slash url; db := db; user := user;
                              password := pw; uid := uid (client imp) |}
           /\ Py.truthy (uid (client imp)) = true
           /\ on_authenticate odoo db user pw (w_server w)
              = (inr (uid (client imp)), w_server out.2)
           /\ ServerProxy odoo (rstrip_slash url +:+ "/xmlrpc/2/common") = inr ()
           /\ ServerProxy odoo (rstrip_slash url +:+ "/xmlrpc/2/object") = inr ()
       | inl e =>
           w_local out.2 = w_local w
           /\ ((evs = [{| ev_call := Authenticate db user pw; ev_fault := Some e |}]
                /\ ServerProxy odoo (rstrip_slash url +:+ "/xmlrpc/2/common") = inr ()
                /\ on_authenticate odoo db user pw (w_server w)
                   = (inl e, w_server out.2))
               \/ client_failure odoo url db user pw (w_server w) e evs)
       end.
Proof.
  intros Hnone. cbv zeta. rewrite (get_thread_importer_None _ _ _ _ _ _ _ _ Hnone).
  unfold client_failure.
  destruct (ServerProxy odoo (rstrip_slash url +:+ "/xmlrpc/2/common"))
    as [e|[]] eqn:Hp1.
  { exists []. cbn [fst snd]. rewrite app_nil_r. repeat split; auto. }
  destruct (on_authenticate odoo db user pw (w_server w)) as [[e|v] s] eqn:Hauth.
  { eexists. cbn [fst snd logged w_log w_stdout w_local w_server].
    repeat split; auto. }
  cbv zeta. destruct (Py.truthy v) eqn:Hv.
  - destruct (ServerProxy odoo (rstrip_slash url +:+ "/xmlrpc/2/object"))
      as [e|[]] eqn:Hp2.
    + eexists. cbn [fst snd logged w_log w_stdout w_local w_server].
      split; [reflexivity|]. split; [reflexivity|]. split; [reflexivity|].
      right. right. exists v, s. do 3 (split; [done|]). by right.
    + eexists. cbn [fst snd logged w_log w_stdout w_local w_server client base_dir uid].
      repeat split; auto.
  - eexists. cbn [fst snd logged w_log w_stdout w_local w_server].
    split; [reflexivity|]. split; [reflexivity|]. split; [reflexivity|].
    right. right. exists v, s. do 3 (split; [done|]). by left.
Qed.

(** A worker outside a dry run, step by step. *)
Lemma worker_task_unfold {St} (odoo : Server St) url db user pw tid idx row_dict
    base (w : world St) :
  worker_task odoo url db user pw tid (idx, row_dict, base, false) w
  = match get_thread_importer odoo url db user pw tid base w with
    | (inr importer, w1) =>
        match import_row odoo importer (pd_Series row_dict) w1 with
        | (inr label, w2) => ((idx, true, label), w2)
        | (inl e, w2) =>
            ((idx, false, "ERROR en " +:+ row_ident row_dict +:+ ": " +:+ e), w2)
        end
    | (inl e, w1) =>
        ((idx, false, "ERROR en " +:+ row_ident row_dict +:+ ": " +:+ e), w1)
    end.
Proof.
  unfold worker_task, worker_body, mbind, M_bind, mret, M_ret, bind, ret.
  destruct (get_thread_importer _ _ _ _ _ _ _ w) as [[e|imp] w1]; [done|].
  by destruct (import_row _ _ _ w1) as [[e|label] w2].
Qed.

(** ** Why a row fails, and when it goes through *)

Lemma to_float_default v :
  PyFloat.of_str (PyStr.replace "," "." (Py.str v)) = None -> _to_float v = PyFloat.zero.
Proof.
  intros H. destruct v as [| | | |[|c s]]; try reflexivity; unfold _to_float; by rewrite H.
Qed.

Lemma to_bool_default v :
  PyStr.lower (PyStr.strip (Py.str v)) ∉ truthy_tokens -> v <> PBool true ->
  _to_bool v = false.
Proof.
  intros Hv Hb. destruct (_to_bool v) eqn:E; [|done].
  by apply to_bool_true_inv in E as [->|?].
Qed.

(** When [import_row] raises: a call faulted and is the last one, or all
    calls were answered and [int] refused the category token. *)
Lemma import_row_raises {St} (odoo : Server St) self row (w w' : world St) e :
  import_row odoo self row w = (inl e, w') ->
  exists evs,
    w_log w' = w_log w ++ evs
    /\ ((exists evs0 c, evs = evs0 ++ [{| ev_call := c; ev_fault := Some e |}]
                        /\ all_answered evs0)
        \/ (all_answered evs
            /\ PyStr.isdigit (_safe_str (PStr (category_value row))) = true
            /\ PyStr.int_of_digits (_safe_str (PStr (category_value row))) = inl e)).
Proof.
  intros Hrun.
  destruct (traces_and _ _ _
              (import_row_compositional odoo disciplined self row
                 disciplined_compositional (fun _ _ _ => I))
              (import_row_compositional odoo
                 (caused (_safe_str (PStr (category_value row)))) self row
                 (caused_compositional _) (fun e Hd He => or_intror (conj Hd He)))
              w) as (evs & Hlog & Hfl & Hc).
  rewrite Hrun in Hlog, Hfl, Hc. simpl in Hlog, Hfl, Hc.
  exists evs. split; [done|].
  apply (fault_last_raised (A:=string)) in Hfl as [Hall|Hlast]; [|by left].
  destruct Hc as [[c Hin]|Hint]; [|by right].
  unfold all_answered in Hall. rewrite Forall_forall in Hall.
  by specialize (Hall _ Hin).
Qed.

(** When a successful [import_row] ends: every call was answered. *)
Lemma import_row_answered {St} (odoo : Server St) self row (w w' : world St) label :
  import_row odoo self row w = (inr label, w') ->
  exists evs, w_log w' = w_log w ++ evs /\ all_answered evs.
Proof.
  intros Hrun.
  destruct (import_row_compositional odoo disciplined self row
              disciplined_compositional (fun _ _ _ => I) w) as (evs & Hlog & Hfl).
  rewrite Hrun in Hlog, Hfl. simpl in Hlog, Hfl.
  exists evs. split; [done|]. by eapply fault_last_inr.
Qed.

(** Closes a branch in which a call faulted, against [answers]. *)
Ltac answered Ha :=
  destruct Ha as (Hans_s & Hans_r & Hans_c & Hans_w);
  match goal with
  | H : on_search _ ?m ?d ?k ?s = (inl _, _) |- _ =>
      specialize (Hans_s m d k s); rewrite H in Hans_s; discriminate
  | H : on_read _ ?m ?i ?f ?s = (inl _, _) |- _ =>
      specialize (Hans_r m i f s); rewrite H in Hans_r; discriminate
  | H : on_create _ ?m ?v ?s = (inl _, _) |- _ =>
      specialize (Hans_c m v s); rewrite H in Hans_c; discriminate
  | H : on_write _ ?m ?i ?v ?s = (inl _, _) |- _ =>
      specialize (Hans_w m i v s); rewrite H in Hans_w; discriminate
  end.

Lemma ensure_category_returns {St} (odoo : Server St) self value :
  answers odoo ->
  (PyStr.isdigit (_safe_str value) = true ->
   exists n, PyStr.int_of_digits (_safe_str value) = inr n) ->
  traces (ensure_category odoo self value) (fun r _ => exists v, r = inr v).
Proof.
  intros Ha Hint. unfold ensure_category, read_res_id.
  destruct (PyStr.isdigit (_safe_str value)) eqn:Hd.
  - destruct Hint as [n Hn]; [done|]. rewrite Hn.
    walk; first [by eauto | answered Ha].
  - walk; first [by eauto | answered Ha].
Qed.

Lemma import_row_returns {St} (odoo : Server St) self row (w : world St) :
  answers odoo ->
  (PyStr.isdigit (_safe_str (PStr (category_value row))) = true ->
   exists n, PyStr.int_of_digits (_safe_str (PStr (category_value row))) = inr n) ->
  exists label w', import_row odoo self row w = (inr label, w').
Proof.
  intros Ha Hint.
  cut (traces (import_row odoo self row) (fun r _ => exists label, r = inr label)).
  { intros H. destruct (H w) as (evs & _ & label & Hl).
    destruct (import_row odoo self row w) as [r w']. simpl in Hl. subst r. eauto. }
  unfold import_row. destruct (negb _ && negb _); [apply traces_ret; eauto|].
  apply traces_bind. eapply traces_mono; [by apply ensure_category_returns|].
  intros [e|cid] evs [v Hv]; [discriminate|]. cbv beta iota.
  walk; first [by eauto | answered Ha].
Qed.

(** C7: the two conversions are total, with a default in place of an
    exception: a text that [float] rejects, such as "abc", gives 0.0, and a
    value outside the truthy vocabulary gives false. No row fails because of
    them. A row that fails does so because a remote call faulted, that call
    being the last one; because its thread had no importer and the client
    could not be made (an address refused, the credentials rejected by the
    server); or because [int] refused the category token. And a row goes
    through, whatever its price and flag cells hold, as soon as the server
    answers the calls, the thread has or can make its importer, and [int]
    does not refuse the category token. *)
Theorem conversions_never_fail_a_row {St} (odoo : Server St) url db user pw tid
    idx row_dict base dry (w : world St) :
  let row := pd_Series row_dict in
  let token := _safe_str (PStr (category_value row)) in
  _to_float (PStr "abc") = PyFloat.zero
  /\ _to_bool (PStr "abc") = false
  /\ (forall v, PyFloat.of_str (PyStr.replace "," "." (Py.str v)) = None ->
                _to_float v = PyFloat.zero)
  /\ (forall v, PyStr.lower (PyStr.strip (Py.str v)) ∉ truthy_tokens ->
                v <> PBool true -> _to_bool v = false)
  /\ (exists ok msg w' evs,
        worker_task odoo url db user pw tid (idx, row_dict, base, dry) w
        = ((idx, ok, msg), w')
        /\ w_log w' = w_log w ++ evs
        /\ (ok = true
            \/ exists e, msg = "ERROR en " +:+ row_ident row_dict +:+ ": " +:+ e
                 /\ row_failure odoo url db user pw tid row w e evs))
  /\ (answers odoo ->
      client_ready odoo url db user pw tid w ->
      (PyStr.isdigit token = true -> exists n, PyStr.int_of_digits token = inr n) ->
      exists label w',
        worker_task odoo url db user pw tid (idx, row_dict, base, dry) w
        = ((idx, true, label), w')).
Proof.
  intros row token.
  split; [reflexivity|]. split; [reflexivity|].
  split; [exact to_float_default|]. split; [exact to_bool_default|].
  destruct dry.
  { split; [|by eauto]. exists true, "(dry-run)", w, []. rewrite app_nil_r. auto. }
  rewrite worker_task_unfold. fold row.
  destruct (w_local w !! tid) as [imp|] eqn:Hslot.
  - (* the thread has its importer *)
    rewrite (get_thread_importer_cached _ _ _ _ _ _ _ _ _ Hslot). split.
    + destruct (import_row odoo imp row w) as [[e|label] w1] eqn:Hrun.
      * destruct (import_row_raises _ _ _ _ _ _ Hrun) as (evs & Hlog & Hwhy).
        eexists false, _, w1, evs. split; [reflexivity|]. split; [done|].
        right. exists e. split; [done|].
        destruct Hwhy as [H|H]; [by left | by right; right].
      * destruct (import_row_answered _ _ _ _ _ _ Hrun) as (evs & Hlog & _).
        exists true, label, w1, evs. auto.
    + intros Ha _ Hint.
      destruct (import_row_returns odoo imp row w Ha Hint) as (label & w1 & ->).
      eauto.
  - (* the thread makes its importer *)
    destruct (get_thread_importer_fresh odoo url db user pw tid base w Hslot)
      as (evs1 & Hlog1 & _ & Hcase).
    destruct (get_thread_importer odoo url db user pw tid base w) as [[e|imp] w1];
      cbn [fst snd] in Hlog1, Hcase.
    + (* no client *)
      destruct Hcase as (_ & Hwhy). split.
      * eexists false, _, w1, evs1. split; [reflexivity|]. split; [done|].
        right. exists e. split; [done|].
        destruct Hwhy as [[-> _]|Hwhy]; [|by right; left].
        left. exists [], (Authenticate db user pw). split; [done | constructor].
      * intros _ [[x Hx]|(Hp1 & Hp2 & v & s' & Hauth & Hv)] _; [congruence|].
        exfalso.
        destruct Hwhy as [(_ & _ & Hf)|[[_ Hf]|(v' & s'' & _ & Hauth' & _ & Hf)]].
        -- congruence.
        -- congruence.
        -- rewrite Hauth in Hauth'. injection Hauth' as <- <-.
           destruct Hf as [[Hf _]|[_ Hf]]; congruence.
    + (* a new client *)
      destruct Hcase as (-> & _). split.
      * destruct (import_row odoo imp row w1) as [[e|label] w2] eqn:Hrun.
        -- destruct (import_row_raises _ _ _ _ _ _ Hrun) as (evs & Hlog & Hwhy).
           eexists false, _, w2, (_ ++ evs). split; [reflexivity|].
           split; [by rewrite Hlog, Hlog1, app_assoc|].
           right. exists e. split; [done|].
           destruct Hwhy as [(evs0 & c & -> & Hall)|(Hall & Hd & He)].
           ++ left. eexists (_ :: evs0), c. split; [reflexivity|].
              by constructor.
           ++ right; right. split; [by constructor | done].
        -- destruct (import_row_answered _ _ _ _ _ _ Hrun) as (evs & Hlog & _).
           eexists true, label, w2, (_ ++ evs). split; [done|].
           split; [by rewrite Hlog, Hlog1, app_assoc | by left].
      * intros Ha _ Hint.
        destruct (import_row_returns odoo imp row w1 Ha Hint) as (label & w2 & ->).
        eauto.
Qed.

Lemma conversions_never_fail_a_row_witness :
  _to_float (PStr "12 euros") = PyFloat.zero
  /\ _to_bool (PStr "maybe") = false
  /\ exists label w',
       worker_task empty_db "https://odoo.com" "Testing" "admin" "admin" 0
         (0%nat, {[ "name" := PStr "Widget"; "list_price" := PStr "abc";
                    "sale_ok" := PStr "maybe" ]}, ".", false) (start ())
       = ((0%nat, true, label), w').
Proof.
  destruct (conversions_never_fail_a_row empty_db "https://odoo.com" "Testing"
              "admin" "admin" 0 0%nat
              {[ "name" := PStr "Widget"; "list_price" := PStr "abc";
                 "sale_ok" := PStr "maybe" ]} "." false (start ()))
    as (_ & _ & Hf & Hb & _ & Hok).
  split; [apply Hf; vm_compute; reflexivity|].
  split; [apply Hb; [by apply (bool_decide_eq_false_1 (_ ∈ _)) | discriminate]|].
  apply Hok.
  - by repeat split.
  - right. split; [vm_compute; reflexivity|]. split; [vm_compute; reflexivity|].
    by exists (PInt 2), ().
  - vm_compute. discriminate.
Defined.

(** ** One row *)

(** C2: for a row with a code or a name, once the category is resolved the
    script searches [product.template] with limit 1, by exact code when the
    code is present and by exact name otherwise; on a match it writes the
    value map onto the first id found and answers "update: " followed by the
    code, or the name when there is no code; without a match it creates a
    record from the value map and answers "create: " likewise. *)
Theorem import_row_upsert {St} (odoo : Server St) self row (w w1 : world St) cid :
  let default_code := _safe_str (Py.get row "default_code") in
  let name := _safe_str (Py.get row "name") in
  let key := if PyStr.nonempty default_code
             then [("default_code", "=", PStr default_code)]
             else [("name", "=", PStr name)] in
  let vals := build_vals row cid in
  let found := Search "product.template" key (Some 1) in
  PyStr.nonempty default_code || PyStr.nonempty name = true ->
  ensure_category odoo self (PStr (category_value row)) w = (inr cid, w1) ->
  forall ids s2,
    on_search odoo "product.template" key (Some 1) (w_server w1) = (inr ids, s2) ->
    match ids with
    | i :: _ =>
        forall done s3,
          on_write odoo "product.template" [i] vals s2 = (inr done, s3) ->
          import_row odoo self row w
          = (inr ("update: " +:+ PyStr.or_else default_code name),
             logged (logged w1 found None s2)
                    (Write "product.template" [i] vals) None s3)
    | [] =>
        forall new_id s3,
          on_create odoo "product.template" vals s2 = (inr new_id, s3) ->
          import_row odoo self row w
          = (inr ("create: " +:+ PyStr.or_else default_code name),
             logged (logged w1 found None s2)
                    (Create "product.template" vals) None s3)
    end.
Proof.
  intros default_code name key vals found Hid Hcat ids s2 Hs.
  assert (negb (PyStr.nonempty name) && negb (PyStr.nonempty default_code) = false)
    as Hguard.
  { destruct (PyStr.nonempty default_code), (PyStr.nonempty name); done. }
  unfold import_row. fold default_code name. rewrite Hguard.
  unfold mbind, M_bind, mret, M_ret, bind. rewrite Hcat.
  fold vals key. unfold search, rpc. change (1 =? 0) with false. cbv iota.
  rewrite Hs. cbn [fault_of].
  destruct ids as [|i ids].
  - intros new_id s3 Hc. unfold create, rpc. cbn [logged w_server].
    by rewrite Hc.
  - intros done s3 Hw. unfold write, rpc. cbn [logged w_server].
    by rewrite Hw.
Qed.

Lemma import_row_upsert_witness :
  (import_row scripted an_importer
     {[ "default_code" := PStr "SKU1"; "name" := PStr "Widget";
        "categ_id/id" := PStr "5"; "list_price" := PStr "10,50" ]}
     (start [RIds [5]])).1
  = inr "create: SKU1"
  /\ (import_row scripted an_importer {[ "name" := PStr " Widget " ]}
        (start [RIds [42; 43]])).1
     = inr "update: Widget".
Proof.
  split.
  - pose proof (import_row_upsert scripted an_importer
                  {[ "default_code" := PStr "SKU1"; "name" := PStr "Widget";
                     "categ_id/id" := PStr "5"; "list_price" := PStr "10,50" ]}
                  (start [RIds [5]])
                  (logged (start [RIds [5]])
                     (Search "product.category" [("id", "=", PInt 5)] (Some 1))
                     None [])
                  (PInt 5)) as H.
    cbv zeta in H.
    specialize (H ltac:(vm_compute; reflexivity) ltac:(vm_compute; reflexivity)
                  [] [] ltac:(vm_compute; reflexivity)).
    cbv iota in H. by rewrite (H 1 [] ltac:(vm_compute; reflexivity)).
  - pose proof (import_row_upsert scripted an_importer {[ "name" := PStr " Widget " ]}
                  (start [RIds [42; 43]]) (start [RIds [42; 43]]) PNone) as H.
    cbv zeta in H.
    specialize (H ltac:(vm_compute; reflexivity) ltac:(vm_compute; reflexivity)
                  [42; 43] [] ltac:(vm_compute; reflexivity)).
    cbv iota in H. by rewrite (H true [] ltac:(vm_compute; reflexivity)).
Defined.

(** ** What a worker prints and which sessions it touches *)

Section EffectRules.

Context {St : Type} (odoo : Server St).

Lemma effects_ret {A} (a : A) Φ : Φ (inr a) [] -> effects (St:=St) (ret a) Φ.
Proof. intros H w. split; [done|]. exists []. by rewrite app_nil_r. Qed.

Lemma effects_raise {A} e (Φ : string + A -> list string -> Prop) :
  Φ (inl e) [] -> effects (St:=St) (raise e) Φ.
Proof. intros H w. split; [done|]. exists []. by rewrite app_nil_r. Qed.

Lemma effects_of_sum {A} (r : string + A) Φ : Φ r [] -> effects (St:=St) (of_sum r) Φ.
Proof. destruct r; [apply effects_raise | apply effects_ret]. Qed.

Lemma effects_print line Φ : Φ (inr ()) [line] -> effects (St:=St) (print line) Φ.
Proof. intros H w. split; [done|]. by exists [line]. Qed.

Lemma effects_rpc {R} c (h : St -> (string + R) * St) Φ :
  (forall r, Φ r []) -> effects (rpc c h) Φ.
Proof.
  intros H w. unfold rpc. destruct (h (w_server w)) as [r s].
  split; [done|]. exists []. simpl. by rewrite app_nil_r.
Qed.

Lemma effects_bind {A B} (m : M St A) (k : A -> M St B) Φ :
  effects m (fun r lines1 =>
               match r with
               | inl e => Φ (inl e) lines1
               | inr a => effects (k a) (fun r' lines2 => Φ r' (lines1 ++ lines2))
               end) ->
  effects (bind m k) Φ.
Proof.
  intros H w. unfold bind. destruct (H w) as (Hloc & lines1 & Hout & Hm).
  destruct (m w) as [[e|a] w1]; simpl in *.
  - split; [done|]. by exists lines1.
  - destruct (Hm w1) as (Hloc2 & lines2 & Hout2 & Hk).
    split; [congruence|]. exists (lines1 ++ lines2).
    by rewrite Hout2, Hout, app_assoc.
Qed.

Lemma effects_mono {A} (m : M St A) (Φ Ψ : string + A -> list string -> Prop) :
  effects m Φ -> (forall r lines, Φ r lines -> Ψ r lines) -> effects m Ψ.
Proof.
  intros H HΦ w. destruct (H w) as (? & lines & ? & ?).
  split; [done|]. exists lines. auto.
Qed.

End EffectRules.

Ltac effects_step :=
  lazymatch goal with
  | |- effects (mbind _ _) _ => apply effects_bind
  | |- effects (bind _ _) _ => apply effects_bind
  | |- effects (mret _) _ => apply effects_ret
  | |- effects (ret _) _ => apply effects_ret
  | |- effects (raise _) _ => apply effects_raise
  | |- effects (of_sum _) _ => apply effects_of_sum
  | |- effects (print _) _ => apply effects_print
  | |- effects (search _ _ _ _ _) _ => apply effects_rpc; intros [?|[|? ?]]
  | |- effects (read _ _ _ _ _) _ => apply effects_rpc; intros [?|[|? ?]]
  | |- effects (create _ _ _ _) _ => apply effects_rpc; intros [?|?]
  | |- effects (write _ _ _ _ _) _ => apply effects_rpc; intros [?|?]
  | |- effects (rpc _ _) _ => apply effects_rpc; intros [?|?]
  | |- effects (if ?b then _ else _) _ => destruct b eqn:?
  | |- effects (match ?x with _ => _ end) _ => destruct x eqn:?
  | |- effects (let '(_, _) := ?x in _) _ => destruct x eqn:?
  | |- match ?r with inl _ => _ | inr _ => _ end => destruct r eqn:?
  end; cbv beta iota.

Ltac effects_walk := cbv beta iota; repeat effects_step; cbn [app].

Lemma ensure_category_effects {St} (odoo : Server St) self value :
  effects (ensure_category odoo self value)
    (fun r lines =>
       if PyStr.nonempty (_safe_str value) && unresolved r
       then lines = [category_warning (_safe_str value)]
       else lines = []).
Proof.
  unfold ensure_category, read_res_id.
  destruct (PyStr.nonempty (_safe_str value)) eqn:Hne; cbn [negb andb].
  - effects_walk; try done.
    all: match goal with
         | H : Py.truthy ?v = true |- _ => by destruct v
         end.
  - effects_walk. done.
Qed.

(** X13: category resolution prints one line, the warning that names the
    token, exactly when the token is not blank and the result is None (no
    strategy found an id); in every other case it prints nothing. It never
    touches the importers of the threads. *)
Theorem warning_iff_unresolved {St} (odoo : Server St) self value (w : world St) :
  let token := _safe_str value in
  let out := ensure_category odoo self value w in
  w_local out.2 = w_local w
  /\ ((token <> "" /\ out.1 = inr PNone
       /\ w_stdout out.2 = w_stdout w ++ [category_warning token])
      \/ ((token = "" \/ out.1 <> inr PNone) /\ w_stdout out.2 = w_stdout w)).
Proof.
  intros token out.
  destruct (ensure_category_effects odoo self value w) as (Hloc & lines & Hout & H).
  fold token out in Hloc, Hout, H. split; [done|].
  destruct (PyStr.nonempty token) eqn:Hne; cbn [andb] in H.
  - destruct (unresolved out.1) eqn:Hr; subst lines.
    + left. split; [by destruct token|]. split; [|done].
      by destruct out.1 as [|[]].
    + right. rewrite app_nil_r in Hout. split; [|done]. right.
      intros E. by rewrite E in Hr.
  - subst lines. right. rewrite app_nil_r in Hout. split; [|done].
    left. by destruct token.
Qed.

Lemma import_row_effects {St} (odoo : Server St) self row :
  effects (import_row odoo self row)
    (fun _ lines => lines = []
                    \/ lines = [category_warning (PyStr.strip (category_value row))]).
Proof.
  unfold import_row. destruct (negb _ && negb _); [apply effects_ret; by left|].
  apply effects_bind. eapply effects_mono; [apply ensure_category_effects|].
  intros r lines1 H1. cbv beta in H1.
  assert (lines1 = [] \/ lines1 = [category_warning (PyStr.strip (category_value row))])
    as Hl.
  { destruct (_ && _); auto. }
  clear H1. destruct r as [e|cid]; [done|].
  effects_walk; by rewrite app_nil_r.
Qed.

Lemma client_init_effects {St} (odoo : Server St) url db user pw :
  effects (OdooClient_init odoo url db user pw) (fun _ lines => lines = []).
Proof. unfold OdooClient_init. effects_walk; done. Qed.

Lemma get_thread_importer_world {St} (odoo : Server St) url db user pw tid base
    (w : world St) :
  let w1 := (get_thread_importer odoo url db user pw tid base w).2 in
  w_stdout w1 = w_stdout w
  /\ (forall t, t <> tid \/ is_Some (w_local w !! t) ->
                w_local w1 !! t = w_local w !! t).
Proof.
  cbv zeta.
  unfold get_thread_importer, get_local, set_local, mbind, M_bind, mret, M_ret,
    bind, ret.
  destruct (w_local w !! tid) as [imp|] eqn:Hslot; [done|].
  destruct (client_init_effects odoo url db user pw w) as (Hloc & lines & Hout & ->).
  rewrite app_nil_r in Hout.
  destruct (OdooClient_init odoo url db user pw w) as [[e|c] w1]; simpl in *.
  - split; [done|]. intros t _. by rewrite Hloc.
  - split; [done|]. intros t Ht. rewrite Hloc. apply lookup_insert_ne.
    intros ->. destruct Ht as [?|[x Hx]]; congruence.
Qed.

(** A worker leaves the importers of the other threads alone and never
    replaces the one its own thread has; it prints nothing, or the one
    warning about the category of its row, as read through [pd.Series]. *)
Lemma worker_task_effects {St} (odoo : Server St) url db user pw tid idx row_dict
    base dry (w : world St) :
  let w' := (worker_task odoo url db user pw tid (idx, row_dict, base, dry) w).2 in
  (forall t, t <> tid \/ is_Some (w_local w !! t) -> w_local w' !! t = w_local w !! t)
  /\ (w_stdout w' = w_stdout w
      \/ w_stdout w'
         = w_stdout w
           ++ [category_warning (PyStr.strip (category_value (pd_Series row_dict)))]).
Proof.
  cbv zeta. destruct dry; [by split; [|left]|].
  rewrite worker_task_unfold.
  destruct (get_thread_importer_world odoo url db user pw tid base w) as [Hout1 Hloc1].
  destruct (get_thread_importer odoo url db user pw tid base w) as [[e|imp] w1];
    simpl in Hout1, Hloc1; [by split; [|left]|].
  destruct (import_row_effects odoo imp (pd_Series row_dict) w1)
    as (Hloc & lines & Hout & Hl).
  destruct (import_row odoo imp (pd_Series row_dict) w1) as [[e|label] w2]; simpl in *.
  all: split; [intros t Ht; rewrite Hloc; by apply Hloc1|].
  all: rewrite Hout, Hout1; destruct Hl as [-> | ->]; rewrite ?app_nil_r; auto.
Qed.

(** ** The pool and the report *)

Section Pool.

Context {St : Type} (odoo : Server St) (url db user pw : string).

(** An invariant [I] of the world and a property [P] of each result, kept by
    every task, hold after the pool has run a schedule; the futures that are
    set are those that were set and those of the scheduled tasks. *)
Lemma run_pool_inv (P : nat -> result -> Prop) (I : world St -> Prop)
    (tasks : list task) :
  (forall i t tid w, tasks !! i = Some t -> I w ->
                     P i (worker_task odoo url db user pw tid t w).1 /\ I (worker_task odoo url db user pw tid t w).2) ->
  forall sched (futures : gmap nat result) w,
    I w ->
    (forall i r, futures !! i = Some r -> P i r) ->
    I (run_pool odoo url db user pw tasks sched futures w).2
    /\ (forall i r, (run_pool odoo url db user pw tasks sched futures w).1 !! i = Some r -> P i r)
    /\ (forall i, is_Some ((run_pool odoo url db user pw tasks sched futures w).1 !! i)
                  <-> is_Some (futures !! i)
                      \/ (i ∈ sched.*1 /\ is_Some (tasks !! i))).
Proof.
  intros Hstep sched. induction sched as [|[i tid] sched IH]; intros futures w Hw Hf.
  - simpl. split; [done|]. split; [done|]. intros i.
    split; [by left|]. intros [?|[Hi _]]; [done|]. by apply elem_of_nil in Hi.
  - cbn [run_pool]. destruct (tasks !! i) as [t|] eqn:Ht.
    + destruct (Hstep i t tid w Ht Hw) as [HP HI].
      destruct (worker_task odoo url db user pw tid t w) as [r w'] eqn:Hr. simpl in HP, HI.
      destruct (IH (<[i := r]> futures) w' HI) as (H1 & H2 & H3).
      { intros j r' Hj. destruct (decide (i = j)) as [->|Hne].
        - rewrite lookup_insert_eq in Hj. by simplify_eq.
        - rewrite lookup_insert_ne in Hj by done. eauto. }
      split; [done|]. split; [done|].
      intros j. rewrite H3. rewrite fmap_cons, elem_of_cons. simpl.
      destruct (decide (i = j)) as [->|Hne].
      * rewrite lookup_insert_eq, Ht. split; [|eauto]. intros _. right. eauto.
      * rewrite lookup_insert_ne by done.
        split; [intros [?|[? ?]]; auto|].
        intros [?|[[?|?] ?]]; [by left|done|by right].
    + destruct (IH futures w Hw Hf) as (H1 & H2 & H3).
      split; [done|]. split; [done|].
      intros j. rewrite H3, fmap_cons, elem_of_cons. simpl.
      split; [intros [?|[? ?]]; auto|].
      intros [?|[[->|?] Hj]]; [by left| |by right].
      rewrite Ht in Hj. by destruct Hj.
Qed.

(** With a schedule that completes every task once, [executor.map] hands
    out one result for each task, in the order of the tasks. *)
Lemma executor_map_inv (P : nat -> result -> Prop) (I : world St -> Prop)
    (tasks : list task) sched w :
  (forall i t tid w, tasks !! i = Some t -> I w ->
                     P i (worker_task odoo url db user pw tid t w).1 /\ I (worker_task odoo url db user pw tid t w).2) ->
  I w ->
  sched.*1 ≡ₚ seq 0 (length tasks) ->
  exists results w',
    executor_map odoo url db user pw tasks sched w = (Some results, w')
    /\ I w'
    /\ Forall2 P (seq 0 (length tasks)) results.
Proof.
  intros Hstep Hw Hperm. unfold executor_map.
  destruct (run_pool_inv P I tasks Hstep sched ∅ w Hw) as (HI & HP & Hdom).
  { intros i r. by rewrite lookup_empty. }
  destruct (run_pool odoo url db user pw tasks sched ∅ w) as [futures w'] eqn:Hrun. simpl in *.
  assert (is_Some (mapM (fun i => futures !! i) (seq 0 (length tasks)))) as [results Hres].
  { apply mapM_is_Some, Forall_forall. intros i Hi. simpl. apply Hdom. right.
    split; [by rewrite Hperm|].
    apply elem_of_seq in Hi. apply lookup_lt_is_Some. lia. }
  exists results, w'. rewrite Hres. split; [done|]. split; [done|].
  apply mapM_Some_1 in Hres. eapply Forall2_impl; [exact Hres|]. simpl. eauto.
Qed.

(** The reporting loop: one line for each result, in the order in which the
    results arrive; each result adds one to exactly one counter; the loop
    only prints. *)
Lemma report_loop total (results : list result) t (w : world St) :
  let out := foldl (report_one total) (t, w) results in
  reported out.1 = reported t ++ (row_line <$> results)
  /\ ok_count out.1
     = (ok_count t + length (filter (fun r => r.1.2 = true) results))%nat
  /\ err_count out.1
     = (err_count t + length (filter (fun r => r.1.2 = false) results))%nat
  /\ w_server out.2 = w_server w /\ w_log out.2 = w_log w
  /\ w_local out.2 = w_local w.
Proof.
  revert t w. induction results as [|[[i ok] msg] results IH]; intros t w.
  - simpl. rewrite app_nil_r. repeat split; lia.
  - cbn [foldl]. cbv zeta in IH. unfold report_one at 2 4 6 8 10 12.
    cbv beta iota zeta.
    destruct ok;
      match goal with
      | |- context [foldl _ (?t1, ?w1) _] =>
          destruct (IH t1 w1) as (H1 & H2 & H3 & H4 & H5 & H6)
      end;
      rewrite H1, H2, H3, H4, H5, H6;
      cbn [ok_count err_count reported w_server w_log w_local out
           fmap list_fmap row_line fst snd];
      rewrite <- app_assoc.
    + rewrite filter_cons_True, filter_cons_False by done.
      cbn [length app]. repeat split; first [reflexivity | by rewrite <- Nat.add_assoc].
    + rewrite filter_cons_False, filter_cons_True by done.
      cbn [length app]. repeat split; first [reflexivity | by rewrite <- Nat.add_assoc].
Qed.

(** The lines of the loop, one for each result, in the order in which the
    results arrive. *)
Lemma report_loop_stdout total (results : list result) t (w : world St) :
  w_stdout (foldl (report_one total) (t, w) results).2
  = w_stdout w ++ (report_text total <$> results).
Proof.
  revert t w. induction results as [|[[i ok] msg] results IH]; intros t w.
  - simpl. by rewrite app_nil_r.
  - cbn [foldl]. unfold report_one at 2. cbv beta iota zeta.
    destruct ok; rewrite IH; cbn [w_stdout out fmap list_fmap report_text];
      by rewrite <- app_assoc.
Qed.

End Pool.

Lemma worker_task_index {St} (odoo : Server St) url db user pw tid idx row base dry
    (w : world St) :
  (worker_task odoo url db user pw tid (idx, row, base, dry) w).1.1.1 = idx.
Proof.
  pose proof (worker_body_inr odoo url db user pw tid idx row base dry w) as Hinr.
  unfold worker_task.
  destruct (worker_body odoo url db user pw tid (idx, row, base, dry) w)
    as [[e|r] w1]; [done|].
  by destruct (Hinr w1 r eq_refl) as [label ->].
Qed.

Lemma filter_ok_partition (results : list (nat * bool * string)) :
  (length (filter (fun r => r.1.2 = true) results)
   + length (filter (fun r => r.1.2 = false) results))%nat
  = length results.
Proof.
  induction results as [|[[i []] msg] results IH]; [done| |].
  - rewrite filter_cons_True, filter_cons_False by done. simpl. by rewrite IH.
  - rewrite filter_cons_False, filter_cons_True by done. simpl.
    by rewrite Nat.add_succ_r, IH.
Qed.

Lemma filter_row_line (b : bool) (results : list (nat * bool * string)) :
  length (filter (fun l => l.1.2 = b) (row_line <$> results))
  = length (filter (fun r => r.1.2 = b) results).
Proof.
  induction results as [|r results IH]; [done|].
  rewrite fmap_cons. destruct (decide (r.1.2 = b)) as [Hb|Hb].
  - rewrite !filter_cons_True by done. simpl. by rewrite IH.
  - rewrite !filter_cons_False by done. done.
Qed.

(** The run of [main] on a batch that is not empty, with a pool of at least
    one thread and a schedule that completes every task once: it finishes,
    and what it reports is the line of each result that [executor.map]
    handed out, with the two counters counting these results. *)
Lemma main_finishes {St} (odoo : Server St) url db user pw
    (P : nat -> result -> Prop) (I : world St -> Prop)
    records base dry workers sched (w : world St) :
  records <> [] -> 0 < workers ->
  sched.*1 ≡ₚ seq 0 (length records) ->
  (forall i row tid w, records !! i = Some row -> I w ->
     P i (worker_task odoo url db user pw tid (i, row, base, dry) w).1
     /\ I (worker_task odoo url db user pw tid (i, row, base, dry) w).2) ->
  (forall w1 w2 : world St,
     w_server w1 = w_server w2 -> w_log w1 = w_log w2 -> w_local w1 = w_local w2 ->
     I w1 -> I w2) ->
  I w ->
  exists results t w',
    main odoo url db user pw records base dry workers sched w = (Finished t, w')
    /\ Forall2 P (seq 0 (length records)) results
    /\ reported t = row_line <$> results
    /\ ok_count t = length (filter (fun r => r.1.2 = true) results)
    /\ err_count t = length (filter (fun r => r.1.2 = false) results)
    /\ I w'.
Proof.
  intros Hne Hw Hperm Hstep Hout HI. unfold main.
  destruct (length records =? 0)%nat eqn:Hlen.
  { apply Nat.eqb_eq in Hlen. by destruct records. }
  assert ((workers <=? 0) = false) as -> by lia.
  set (tasks := imap (fun idx rec => (idx, rec, base, dry)) records).
  match goal with
  | |- context [executor_map _ _ _ _ _ tasks sched ?w0] =>
      destruct (executor_map_inv odoo url db user pw P I tasks sched w0)
        as (results & w1 & Hmap & HI1 & HP)
  end.
  { intros i t tid w0 Ht. unfold tasks in Ht. rewrite list_lookup_imap in Ht.
    destruct (records !! i) as [row|] eqn:Hrow; [|done].
    simpl in Ht. injection Ht as <-. by apply Hstep. }
  { by eapply Hout; [..|exact HI]. }
  { unfold tasks. by rewrite length_imap. }
  rewrite Hmap. unfold tasks in HP. rewrite length_imap in HP.
  pose proof (report_loop (length records) results
                {| ok_count := 0; err_count := 0; reported := [] |} w1)
    as (H1 & H2 & H3 & H4 & H5 & H6).
  destruct (foldl (report_one (length records))
              ({| ok_count := 0; err_count := 0; reported := [] |}, w1) results)
    as [t w2].
  simpl in H1, H2, H3, H4, H5, H6.
  eexists results, t, _. split; [reflexivity|].
  repeat split; try done.
  by eapply Hout; [..|exact HI1].
Qed.

(** The run of [main] around the pool: what is printed before the pool
    starts, and what the loop and the summary make of the results that
    [executor.map] hands out. *)
Lemma main_run {St} (odoo : Server St) url db user pw records base dry workers
    sched (w : world St) :
  records <> [] -> 0 < workers ->
  exists w0,
    w_server w0 = w_server w /\ w_log w0 = w_log w /\ w_local w0 = w_local w
    /\ w_stdout w0 = w_stdout w ++ header_lines url db user workers (length records)
    /\ forall results w1,
         executor_map odoo url db user pw
           (imap (fun idx rec => (idx, rec, base, dry)) records) sched w0
         = (Some results, w1) ->
         exists t w',
           main odoo url db user pw records base dry workers sched w = (Finished t, w')
           /\ reported t = row_line <$> results
           /\ ok_count t = length (filter (fun r => r.1.2 = true) results)
           /\ err_count t = length (filter (fun r => r.1.2 = false) results)
           /\ w_server w' = w_server w1 /\ w_log w' = w_log w1
           /\ w_local w' = w_local w1
           /\ w_stdout w'
              = w_stdout w1 ++ (report_text (length records) <$> results)
                ++ summary_lines t.
Proof.
  intros Hne Hw. unfold main.
  destruct (length records =? 0)%nat eqn:Hlen.
  { apply Nat.eqb_eq in Hlen. by destruct records. }
  assert ((workers <=? 0) = false) as -> by lia.
  match goal with
  | |- context [executor_map _ _ _ _ _ _ _ ?w0] => exists w0
  end.
  split; [reflexivity|]. split; [reflexivity|]. split; [reflexivity|].
  split.
  { cbn [w_stdout out]. by rewrite <- app_assoc. }
  intros results w1 ->.
  pose proof (report_loop (length records) results
                {| ok_count := 0; err_count := 0; reported := [] |} w1)
    as (H1 & H2 & H3 & H4 & H5 & H6).
  pose proof (report_loop_stdout (length records) results
                {| ok_count := 0; err_count := 0; reported := [] |} w1) as H7.
  destruct (foldl (report_one (length records))
              ({| ok_count := 0; err_count := 0; reported := [] |}, w1) results)
    as [t w2].
  simpl in H1, H2, H3, H4, H5, H6, H7.
  eexists t, _. split; [reflexivity|].
  cbn [w_server w_log w_local w_stdout out]. rewrite H7, <- app_assoc.
  by repeat split.
Qed.




Lemma filter_all_ok (msg : string) (l : list nat) :
  length (filter (fun r : nat * bool * string => r.1.2 = true)
                 ((fun i => (i, true, msg)) <$> l)) = length l
  /\ length (filter (fun r : nat * bool * string => r.1.2 = false)
                    ((fun i => (i, true, msg)) <$> l)) = 0%nat.
Proof.
  induction l as [|i l [IH1 IH2]]; [done|].
  rewrite fmap_cons, filter_cons_True, filter_cons_False by done.
  simpl. by rewrite IH1, IH2.
Qed.

(** C8: in dry-run mode the worker returns the synthetic success at once and
    leaves the world as it found it: no client is made, nothing is called,
    nothing is printed. A dry run of a batch therefore reports every row as
    "(dry-run)" success, with no failure counted, and leaves the server, the
    log of remote calls and the thread-local importers untouched. *)
Theorem dry_run_is_inert {St} (odoo : Server St) url db user pw :
  (forall tid idx row base (w : world St),
     worker_task odoo url db user pw tid (idx, row, base, true) w
     = ((idx, true, "(dry-run)"), w))
  /\ (forall records base workers sched (w : world St),
        records <> [] -> 0 < workers ->
        sched.*1 ≡ₚ seq 0 (length records) ->
        exists t w',
          main odoo url db user pw records base true workers sched w
          = (Finished t, w')
          /\ reported t = (fun i => (S i, true, "(dry-run)")) <$> seq 0 (length records)
          /\ ok_count t = length records
          /\ err_count t = 0%nat
          /\ w_server w' = w_server w
          /\ w_log w' = w_log w
          /\ w_local w' = w_local w).
Proof.
  split; [reflexivity|].
  intros records base workers sched w Hne Hw Hperm.
  destruct (main_finishes odoo url db user pw
              (fun i r => r = (i, true, "(dry-run)"))
              (fun w' => w_server w' = w_server w /\ w_log w' = w_log w
                         /\ w_local w' = w_local w)
              records base true workers sched w Hne Hw Hperm)
    as (results & t & w' & Hmain & HP & Hrep & Hok & Herr & HI); [| | done |].
  { intros i row tid w0 _ HI. split; [reflexivity | exact HI]. }
  { intros w1 w2 <- <- <-. done. }
  exists t, w'. split; [done|].
  assert (results = (fun i => (i, true, "(dry-run)")) <$> seq 0 (length records))
    as ->.
  { clear -HP. induction HP as [|i r l k Hi _ IH]; [done|].
    by rewrite fmap_cons, IH, Hi. }
  rewrite Hrep, Hok, Herr. split.
  { rewrite <- list_fmap_compose. apply list_fmap_ext. intros ? i _.
    unfold row_line. simpl. by rewrite Nat.add_1_r. }
  destruct (filter_all_ok "(dry-run)" (seq 0 (length records))) as [H1 H2].
  split; [etrans; [exact H1 | apply length_seq]|].
  split; [exact H2 | done].
Qed.

Lemma dry_run_is_inert_witness :
  exists t w',
    main scripted "https://odoo.com" "Testing" "admin" "admin"
         [ {[ "name" := PStr "A" ]}; {[ "name" := PStr "B" ]} ] "." true 4
         [(1, 0); (0, 1)]%nat (start [RFault "unreachable"])
    = (Finished t, w')
    /\ reported t = [(1%nat, true, "(dry-run)"); (2%nat, true, "(dry-run)")]
    /\ err_count t = 0%nat
    /\ w_log w' = [].
Proof.
  destruct (dry_run_is_inert scripted "https://odoo.com" "Testing" "admin" "admin")
    as [_ H].
  destruct (H [ {[ "name" := PStr "A" ]}; {[ "name" := PStr "B" ]} ] "." 4
              [(1, 0); (0, 1)]%nat
              (start [RFault "unreachable"]))
    as (t & w' & Hmain & Hrep & _ & Herr & _ & Hlog & _);
    [discriminate | lia | |].
  - apply (bool_decide_unpack _). vm_compute. exact I.
  - exists t, w'. auto.
Defined.

(** C9, as stated, fails: a batch of one row whose code and name cells are
    empty ends with one success and no failure in the tally. *)
Lemma skipped_row_counted_as_success :
  (main empty_db "https://odoo.com" "Testing" "admin" "admin"
     [ {[ "default_code" := PFloat FNan; "name" := PFloat FNan;
          "list_price" := PFloat (FFin false 105 (-1)) ]} ]
     "." false 4 [(0, 0)]%nat (start ())).1
  = Finished {| ok_count := 1; err_count := 0;
                reported := [(1%nat, true, sin_nombre_ni_codigo)] |}.
Proof. vm_compute. reflexivity. Qed.

(** C9, amended: for a row whose code and name are both blank, [import_row]
    returns at once the label "(sin nombre ni c\243digo)", which is neither
    an "update: " nor a "create: " label, without any remote call and without
    changing anything. For [import_row] this is not an error. A worker whose
    thread has its importer reports the row as a success and leaves the
    world as it was. On a thread without importer the worker first makes
    the client: when the two addresses are accepted and the server answers
    the authentication with a truthy uid, that call is the only one and the
    row is a success; when the client cannot be made, or the authentication
    faults, the row is a failure like any other row, with that error. The
    loop of [main] counts the skipped row under the successes, and the
    failed one under the errors. *)
Theorem blank_row_is_skipped {St} (odoo : Server St) url db user pw self tid idx
    row_dict base (w : world St) :
  let row := pd_Series row_dict in
  let skipped := (idx, true, sin_nombre_ni_codigo) in
  let failed e := (idx, false, "ERROR en " +:+ row_ident row_dict +:+ ": " +:+ e) in
  let run := worker_task odoo url db user pw tid (idx, row_dict, base, false) w in
  let common := rstrip_slash url +:+ "/xmlrpc/2/common" in
  let object := rstrip_slash url +:+ "/xmlrpc/2/object" in
  _safe_str (Py.get row "default_code") = "" ->
  _safe_str (Py.get row "name") = "" ->
  import_row odoo self row w = (inr sin_nombre_ni_codigo, w)
  /\ (forall x, sin_nombre_ni_codigo <> "update: " +:+ x
                /\ sin_nombre_ni_codigo <> "create: " +:+ x)
  /\ (is_Some (w_local w !! tid) -> run = (skipped, w))
  /\ (w_local w !! tid = None ->
      (forall uid s',
         ServerProxy odoo common = inr () ->
         on_authenticate odoo db user pw (w_server w) = (inr uid, s') ->
         Py.truthy uid = true ->
         ServerProxy odoo object = inr () ->
         run.1 = skipped
         /\ w_log run.2 = w_log w ++ [{| ev_call := Authenticate db user pw;
                                         ev_fault := None |}])
      /\ (forall e evs,
            client_failure odoo url db user pw (w_server w) e evs ->
            run.1 = failed e /\ w_log run.2 = w_log w ++ evs)
      /\ (forall e s',
            ServerProxy odoo common = inr () ->
            on_authenticate odoo db user pw (w_server w) = (inl e, s') ->
            run.1 = failed e
            /\ w_log run.2 = w_log w ++ [{| ev_call := Authenticate db user pw;
                                            ev_fault := Some e |}]))
  /\ (forall total t,
        let t' := (report_one total (t, w) skipped).1 in
        ok_count t' = (ok_count t + 1)%nat
        /\ err_count t' = err_count t
        /\ reported t' = reported t ++ [((idx + 1)%nat, true, sin_nombre_ni_codigo)])
  /\ (forall total t e,
        let t' := (report_one total (t, w) (failed e)).1 in
        ok_count t' = ok_count t /\ err_count t' = (err_count t + 1)%nat).
Proof.
  intros row skipped failed run common object Hcode Hname.
  assert (forall self' w', import_row odoo self' row w'
                           = (inr sin_nombre_ni_codigo, w')) as Himp.
  { intros self' w'. unfold import_row. by rewrite Hcode, Hname. }
  split; [apply Himp|]. split; [by intros x; split|].
  unfold run. rewrite worker_task_unfold. fold row.
  split; [|split; [|split; [|done]]].
  - intros [imp Himp'].
    by rewrite (get_thread_importer_cached _ _ _ _ _ _ _ _ _ Himp'), Himp.
  - intros Hnone. rewrite (get_thread_importer_None _ _ _ _ _ _ _ _ Hnone).
    fold common object. split; [|split].
    + intros v s' Hp1 Hauth Hv Hp2. rewrite Hp1, Hauth. cbv zeta.
      by rewrite Hv, Hp2, Himp.
    + intros e evs [[-> Hp1]|(v & s' & Hp1 & Hauth & -> & Hwhy)].
      * fold common in Hp1. rewrite Hp1. cbn [fst snd]. by rewrite app_nil_r.
      * fold common in Hp1. rewrite Hp1, Hauth. cbv zeta.
        destruct Hwhy as [[Hv ->]|[Hv Hp2]]; rewrite Hv; [done|].
        fold object in Hp2. by rewrite Hp2.
    + intros e s' Hp1 Hauth. by rewrite Hp1, Hauth.
  - intros total t. by cbn.
Qed.

Lemma blank_row_is_skipped_witness :
  let row_dict : gmap string pyval :=
    {[ "default_code" := PFloat FNan; "name" := PStr "   ";
       "list_price" := PInt 3 ]} in
  import_row empty_db an_importer (pd_Series row_dict) (start ())
  = (inr sin_nombre_ni_codigo, start ())
  /\ (worker_task empty_db "https://odoo.com" "Testing" "admin" "admin" 0
        (7%nat, row_dict, ".", false) (start ())).1
     = (7%nat, true, sin_nombre_ni_codigo)
  /\ (worker_task empty_db "odoo.com" "Testing" "admin" "admin" 0
        (7%nat, row_dict, ".", false) (start ())).1
     = (7%nat, false, "ERROR en (sin identificador): unsupported XML-RPC protocol").
Proof.
  intros row_dict.
  destruct (blank_row_is_skipped empty_db "https://odoo.com" "Testing" "admin"
              "admin" an_importer 0 7%nat row_dict "." (start ()))
    as (Himp & _ & _ & Hfresh & _); [vm_compute; reflexivity..|].
  destruct (blank_row_is_skipped empty_db "odoo.com" "Testing" "admin"
              "admin" an_importer 0 7%nat row_dict "." (start ()))
    as (_ & _ & _ & Hfresh' & _); [vm_compute; reflexivity..|].
  split; [exact Himp|]. split.
  - destruct Hfresh as (Hok & _); [reflexivity|].
    by destruct (Hok (PInt 2) ()) as [-> _]; [vm_compute; reflexivity..|].
  - destruct Hfresh' as (_ & Hfail & _); [reflexivity|].
    destruct (Hfail "unsupported XML-RPC protocol" []) as [-> _]; [|reflexivity].
    left. split; [done | vm_compute; reflexivity].
Defined.

(** * Further properties of the script *)

(** ** Text: reversal and trimming *)

Lemma append_cons a s t : String a s +:+ t = String a (s +:+ t).
Proof. reflexivity. Qed.

Lemma append_assoc s t u : (s +:+ t) +:+ u = s +:+ (t +:+ u).
Proof. induction s as [|a s IH]; [done|]. by rewrite !append_cons, IH. Qed.

Lemma rev_app_append s t : String.rev_app s t = String.rev_app s "" +:+ t.
Proof.
  revert t. induction s as [|a s IH]; intros t; [done|].
  cbn [String.rev_app]. rewrite (IH (String a t)), (IH (String a "")).
  by rewrite append_assoc.
Qed.

Lemma rev_cons a s : String.rev (String a s) = String.rev s +:+ String a "".
Proof. unfold String.rev. cbn [String.rev_app]. apply rev_app_append. Qed.

Lemma append_empty_r s : s +:+ "" = s.
Proof. induction s as [|a s IH]; [done|]. by rewrite append_cons, IH. Qed.

Lemma rev_append s t : String.rev (s +:+ t) = String.rev t +:+ String.rev s.
Proof.
  induction s as [|a s IH].
  - by rewrite append_empty_r.
  - by rewrite append_cons, !rev_cons, IH, append_assoc.
Qed.

Lemma rev_involutive s : String.rev (String.rev s) = s.
Proof.
  induction s as [|a s IH]; [done|].
  by rewrite rev_cons, rev_append, IH.
Qed.

(** A text that is empty or starts with a character outside [p]. *)
Lemma drop_while_split p s :
  exists ws, s = ws +:+ PyStr.drop_while p s /\ PyStr.all_chars p ws = true.
Proof.
  induction s as [|a s (ws & Hs & Hws)]; [by exists ""|].
  cbn [PyStr.drop_while]. destruct (p a) eqn:Ha.
  - exists (String a ws). rewrite append_cons, <- Hs. cbn [PyStr.all_chars].
    by rewrite Ha, Hws.
  - by exists "".
Qed.

Lemma drop_while_clean p s : clean_head p (PyStr.drop_while p s).
Proof.
  induction s as [|a s IH]; [done|].
  cbn [PyStr.drop_while]. by destruct (p a) eqn:Ha.
Qed.

Lemma drop_while_id p s : clean_head p s -> PyStr.drop_while p s = s.
Proof. destruct s as [|a s]; [done|]. simpl. by intros ->. Qed.

Lemma clean_head_prefix p s t : clean_head p (s +:+ t) -> clean_head p s.
Proof. by destruct s. Qed.

Lemma strip_with_clean p s :
  clean_head p (PyStr.strip_with p s)
  /\ clean_head p (String.rev (PyStr.strip_with p s)).
Proof.
  unfold PyStr.strip_with. rewrite rev_involutive.
  split; [|apply drop_while_clean].
  destruct (drop_while_split p (String.rev (PyStr.drop_while p s))) as (ws & Hs & _).
  pose proof (drop_while_clean p s) as Hc.
  rewrite <- (rev_involutive (PyStr.drop_while p s)), Hs, rev_append in Hc.
  by apply clean_head_prefix in Hc.
Qed.

Lemma strip_with_id p s :
  clean_head p s -> clean_head p (String.rev s) -> PyStr.strip_with p s = s.
Proof.
  intros H1 H2. unfold PyStr.strip_with.
  by rewrite (drop_while_id p s H1), (drop_while_id p _ H2), rev_involutive.
Qed.

Lemma strip_idempotent s : PyStr.strip (PyStr.strip s) = PyStr.strip s.
Proof.
  destruct (strip_with_clean PyStr.isspace s) as [H1 H2].
  by apply strip_with_id.
Qed.

(** ** The helpers *)

(** X1: [_safe_str] gives a text without white space at either end, the
    empty text for None and NaN, and applying it to its own result changes
    nothing (as [ensure_category] does with the category cell that
    [import_row] has already normalised). *)
Theorem safe_str_is_trimmed v :
  clean_head PyStr.isspace (_safe_str v)
  /\ clean_head PyStr.isspace (String.rev (_safe_str v))
  /\ PyStr.strip (_safe_str v) = _safe_str v
  /\ _safe_str (PStr (_safe_str v)) = _safe_str v
  /\ (Py.isna v = true -> _safe_str v = "").
Proof.
  assert (forall s, _safe_str (PStr s) = PyStr.strip s) as Hs by done.
  assert (_safe_str v = "" \/ _safe_str v = PyStr.strip (Py.str v)) as [E|E].
  { unfold _safe_str. destruct (Py.isna v); [by left|]. destruct v; auto. }
  - rewrite E. repeat split; try done.
  - rewrite Hs, E, strip_idempotent.
    destruct (strip_with_clean PyStr.isspace (Py.str v)) as [H1 H2].
    repeat split; try done.
    intros Hna. rewrite <- E. unfold _safe_str. by rewrite Hna.
Qed.

Lemma safe_str_is_trimmed_witness : _safe_str (PFloat FNan) = "".
Proof.
  destruct (safe_str_is_trimmed (PFloat FNan)) as (_ & _ & _ & _ & H).
  by apply H.
Defined.

Lemma lower_idempotent s : PyStr.lower (PyStr.lower s) = PyStr.lower s.
Proof.
  induction s as [|c s IH]; [done|].
  cbn [PyStr.lower]. rewrite IH. f_equal.
  destruct c as [[] [] [] [] [] [] [] []]; reflexivity.
Qed.

(** X2: boolean parsing of a text ignores white space around it and the
    case of its letters. *)
Theorem to_bool_ignores_space_and_case s t :
  PyStr.lower (PyStr.strip s) = PyStr.lower (PyStr.strip t) ->
  _to_bool (PStr s) = _to_bool (PStr t)
  /\ _to_bool (PStr s) = _to_bool (PStr (PyStr.strip s))
  /\ _to_bool (PStr s) = _to_bool (PStr (PyStr.lower s)).
Proof.
  intros H. split; [|split]; cbn [_to_bool Py.str].
  - by rewrite H.
  - by rewrite strip_idempotent.
  - by rewrite (lower_strip (PyStr.lower s)), lower_idempotent, lower_strip.
Qed.

Lemma to_bool_ignores_space_and_case_witness :
  _to_bool (PStr "  YES ") = _to_bool (PStr "yes").
Proof.
  destruct (to_bool_ignores_space_and_case "  YES " "yes") as [H _];
    [reflexivity | exact H].
Defined.

Lemma replace_idempotent a b s :
  a <> b -> PyStr.replace a b (PyStr.replace a b s) = PyStr.replace a b s.
Proof.
  intros Hab. induction s as [|c s IH]; [done|].
  cbn [PyStr.replace]. rewrite IH. f_equal.
  destruct (Ascii.eqb a c) eqn:E; [|by rewrite E].
  destruct (Ascii.eqb a b) eqn:E'; [|done]. by apply Ascii.eqb_eq in E'.
Qed.

(** X3: in a price text the decimal comma and the decimal point are
    interchangeable: the text converts to what it converts to with every
    comma replaced by a point. *)
Theorem to_float_decimal_comma s :
  _to_float (PStr s) = _to_float (PStr (PyStr.replace "," "." s)).
Proof.
  destruct s as [|c s]; [done|].
  unfold _to_float. cbn [Py.str].
  rewrite replace_idempotent by discriminate.
  cbn [PyStr.replace]. reflexivity.
Qed.

(** ** The value map *)

(** X4: whatever the row holds, the value map has no key outside the twelve
    fields name, default_code, supplier_code, brand, barcode, list_price,
    standard_price, available_in_pos, purchase_ok, sale_ok, is_storable and
    categ_id, so between four and twelve keys. *)
Theorem vals_keys_are_known (row : gmap string pyval) (cid : pyval) :
  (forall k, is_Some (build_vals row cid !! k) -> k ∈ value_fields)
  /\ (4 <= size (build_vals row cid) <= 12)%nat.
Proof.
  assert (forall k, is_Some (build_vals row cid !! k) -> k ∈ value_fields) as Hk.
  { intros k [v Hv]. unfold build_vals in Hv.
    repeat first [rewrite lookup_set_if in Hv | rewrite lookup_insert in Hv].
    repeat match type of Hv with
           | context [bool_decide (?a = k)] =>
               destruct (decide (a = k)) as [<-|?];
               [ clear Hv; by apply (bool_decide_eq_true_1 (_ ∈ _))
               | rewrite (bool_decide_eq_false_2 (a = k)), ?andb_false_r in Hv by done ]
           | context [@decide (?a = k) ?d] =>
               destruct (@decide (a = k) d) as [<-|?];
               [ clear Hv; by apply (bool_decide_eq_true_1 (_ ∈ _))
               | ]
           end.
    by rewrite lookup_empty in Hv. }
  split; [exact Hk|]. split.
  - assert (list_to_set flag_fields ⊆ dom (build_vals row cid)) as Hsub.
    { intros k Hin. apply elem_of_list_to_set in Hin. apply elem_of_dom.
      pose proof (flag_lookup row cid) as Hf.
      rewrite Forall_forall in Hf. rewrite (Hf k Hin). eauto. }
    apply subseteq_size in Hsub. rewrite size_dom in Hsub.
    etrans; [|exact Hsub]. by vm_compute.
  - assert (dom (build_vals row cid) ⊆ list_to_set value_fields) as Hsub.
    { intros k Hin. apply elem_of_dom in Hin. apply elem_of_list_to_set. auto. }
    apply subseteq_size in Hsub. rewrite size_dom in Hsub.
    etrans; [exact Hsub|]. by vm_compute.
Qed.

Lemma vals_keys_are_known_witness :
  "colour" ∉ dom (build_vals {[ "name" := PStr "Widget"; "colour" := PStr "red" ]}
                             PNone).
Proof.
  destruct (vals_keys_are_known {[ "name" := PStr "Widget"; "colour" := PStr "red" ]}
              PNone) as [H _].
  intros Hin%elem_of_dom%H. revert Hin. by apply (bool_decide_eq_false_1 (_ ∈ _)).
Defined.

Lemma pd_Series_text (data : gmap string pyval) :
  existsb is_text (map_to_list data).*2 = true -> pd_Series data = data.
Proof. intros H. unfold pd_Series. by rewrite H. Qed.

(** X5: a row is read through thirteen columns only: two rows that agree on
    them give the same value map and the same run of [import_row], whatever
    else they hold. So do two records for the worker, when they read alike
    through [pd.Series]: when the two Series agree on the thirteen columns
    and the records on code and name, which the failure message reads from
    the record itself; in particular when each record has a text cell and
    the records agree on the thirteen columns. *)
Theorem unrecognized_columns_are_ignored {St} (odoo : Server St) url db user pw
    tid idx (record1 record2 : gmap string pyval) base dry (w : world St) :
  let run1 := worker_task odoo url db user pw tid (idx, record1, base, dry) w in
  let run2 := worker_task odoo url db user pw tid (idx, record2, base, dry) w in
  (forall row1 row2 : gmap string pyval,
     Forall (fun k => row1 !! k = row2 !! k) recognized_columns ->
     (forall cid, build_vals row1 cid = build_vals row2 cid)
     /\ (forall self w', import_row odoo self row1 w' = import_row odoo self row2 w'))
  /\ (Forall (fun k => pd_Series record1 !! k = pd_Series record2 !! k)
             recognized_columns ->
      Forall (fun k => record1 !! k = record2 !! k) ["default_code"; "name"] ->
      run1 = run2)
  /\ (existsb is_text (map_to_list record1).*2 = true ->
      existsb is_text (map_to_list record2).*2 = true ->
      Forall (fun k => record1 !! k = record2 !! k) recognized_columns ->
      run1 = run2).
Proof.
  intros run1 run2.
  assert (forall row1 row2 : gmap string pyval,
            Forall (fun k => row1 !! k = row2 !! k) recognized_columns ->
            (forall cid, build_vals row1 cid = build_vals row2 cid)
            /\ (forall self w', import_row odoo self row1 w'
                                = import_row odoo self row2 w')) as Hrows.
  { intros row1 row2 H. rewrite Forall_forall in H.
    assert (forall k, bool_decide (k ∈ recognized_columns) = true ->
                      Py.get row1 k = Py.get row2 k) as Hget.
    { intros k Hk%(bool_decide_eq_true_1 (_ ∈ _)). unfold Py.get. by rewrite (H k Hk). }
    assert (forall cid, build_vals row1 cid = build_vals row2 cid) as Hvals.
    { intros cid. unfold build_vals.
      by repeat match goal with
                | |- context [Py.get row1 ?k] => rewrite (Hget k eq_refl)
                end. }
    assert (category_value row1 = category_value row2) as Hcat.
    { unfold category_value.
      rewrite (H "categ_id/id") by by apply (bool_decide_eq_true_1 (_ ∈ _)).
      by rewrite (Hget "categ_id/id" eq_refl),
           (Hget "categoria de producto / external id" eq_refl). }
    split; [done|].
    intros self w'. unfold import_row. rewrite Hcat.
    rewrite (Hget "default_code" eq_refl), (Hget "name" eq_refl).
    destruct (_ && _); [done|].
    unfold mbind, M_bind. apply bind_cong; [done|]. intros cid w''.
    by rewrite Hvals. }
  assert (Forall (fun k => pd_Series record1 !! k = pd_Series record2 !! k)
                 recognized_columns ->
          Forall (fun k => record1 !! k = record2 !! k) ["default_code"; "name"] ->
          run1 = run2) as Hseries.
  { intros Hs Hd. unfold run1, run2. destruct dry; [done|].
    rewrite !worker_task_unfold. unfold row_ident, Py.get.
    rewrite Forall_forall in Hd.
    rewrite (Hd "default_code"), (Hd "name") by (by apply (bool_decide_unpack _)).
    destruct (get_thread_importer _ _ _ _ _ _ _ w) as [[e|imp] w1]; [done|].
    by rewrite (proj2 (Hrows _ _ Hs)). }
  split; [done|]. split; [done|].
  intros H1 H2 H. apply Hseries.
  - by rewrite (pd_Series_text _ H1), (pd_Series_text _ H2).
  - rewrite Forall_forall in H. apply Forall_forall.
    intros k Hk. apply H. rewrite !elem_of_cons in Hk.
    destruct Hk as [->|[->|Hk]]; [by apply (bool_decide_unpack _)..|].
    by apply elem_of_nil in Hk.
Qed.

Lemma unrecognized_columns_are_ignored_witness :
  worker_task empty_db "https://odoo.com" "Testing" "admin" "admin" 0
    (0%nat, {[ "name" := PStr "Widget"; "colour" := PStr "red" ]}, ".", false)
    (start ())
  = worker_task empty_db "https://odoo.com" "Testing" "admin" "admin" 0
      (0%nat, {[ "name" := PStr "Widget"; "weight" := PInt 3 ]}, ".", false)
      (start ()).
Proof.
  apply (unrecognized_columns_are_ignored empty_db "https://odoo.com" "Testing"
           "admin" "admin" 0 0%nat);
    [vm_compute; reflexivity | vm_compute; reflexivity |].
  unfold recognized_columns.
  repeat (constructor; [vm_compute; reflexivity|]). constructor.
Defined.

Lemma split1_join c s :
  PyStr.contains c s = true ->
  s = (PyStr.split1 c s).1 +:+ String c (PyStr.split1 c s).2
  /\ PyStr.contains c (PyStr.split1 c s).1 = false.
Proof.
  induction s as [|d s IH]; [done|].
  cbn [PyStr.contains PyStr.split1]. destruct (Ascii.eqb c d) eqn:E.
  - intros _. apply Ascii.eqb_eq in E as ->. done.
  - intros [IH1 IH2]%IH. destruct (PyStr.split1 c s) as [a b]. simpl in *.
    rewrite E. split; [|done]. by rewrite append_cons, <- IH1.
Qed.

(** ** Category resolution and the row, call by call *)

Lemma ensure_category_lookups {St} (odoo : Server St) self value :
  traces (ensure_category odoo self value)
         (fun _ evs => Forall (fun ev => category_lookup (ev_call ev) = true) evs).
Proof.
  unfold ensure_category, read_res_id. walk; by repeat constructor.
Qed.

Lemma lookups_are_not_mutations evs :
  Forall (fun ev => category_lookup (ev_call ev) = true) evs -> mutations evs = [].
Proof.
  unfold mutations. induction 1 as [|ev evs Hc _ IH]; [done|].
  rewrite filter_cons_False; [done|].
  destruct (ev_call ev) as [| |? ?|? ? ?|]; simpl in *; congruence.
Qed.

(** X6: category resolution only looks things up: each of its calls is a
    search with limit 1 on [product.category] or [ir.model.data], or a read
    of [res_id] from [ir.model.data]; it never creates or writes. *)
Theorem ensure_category_is_read_only {St} (odoo : Server St) self value
    (w : world St) :
  exists evs,
    w_log (ensure_category odoo self value w).2 = w_log w ++ evs
    /\ Forall (fun ev => category_lookup (ev_call ev) = true) evs
    /\ mutations evs = [].
Proof.
  destruct (ensure_category_lookups odoo self value w) as (evs & Hlog & Hev).
  exists evs. split; [done|]. split; [done|].
  by apply lookups_are_not_mutations.
Qed.

(** X7: for a token with a dot, the first call of category resolution is the
    registry search for the module before the first dot and the name after
    it; the two, joined by a dot, give the token back, and the module holds
    no dot. *)
Theorem qualified_id_is_split_at_first_dot {St} (odoo : Server St) self value
    (w : world St) :
  let token := _safe_str value in
  let module := (PyStr.split1 "." token).1 in
  let name := (PyStr.split1 "." token).2 in
  PyStr.contains "." token = true ->
  module +:+ String "." name = token
  /\ PyStr.contains "." module = false
  /\ exists fault rest,
       w_log (ensure_category odoo self value w).2
       = w_log w
         ++ {| ev_call := Search "ir.model.data"
                            [("module", "=", PStr module); ("name", "=", PStr name);
                             ("model", "=", PStr "product.category")] (Some 1);
               ev_fault := fault |} :: rest.
Proof.
  intros token module name Hdot.
  destruct (split1_join "." token Hdot) as [Hjoin Hmod].
  split; [done|]. split; [done|].
  assert (PyStr.isdigit token = false) as Hd.
  { destruct (PyStr.isdigit token) eqn:E; [|done].
    apply isdigit_no_dot in E. congruence. }
  assert (PyStr.nonempty token = true) as Hne by by destruct token.
  cut (traces (ensure_category odoo self value)
         (fun _ evs => exists fault rest,
            evs = {| ev_call := Search "ir.model.data"
                                  [("module", "=", PStr module);
                                   ("name", "=", PStr name);
                                   ("model", "=", PStr "product.category")] (Some 1);
                     ev_fault := fault |} :: rest)).
  { intros H. destruct (H w) as (evs & Hlog & fault & rest & ->). eauto. }
  unfold ensure_category, read_res_id. fold token. rewrite Hne, Hd, Hdot.
  unfold module, name. destruct (PyStr.split1 "." token) as [m n].
  cbn [negb]. walk; eauto.
Qed.

Lemma qualified_id_is_split_at_first_dot_witness :
  exists fault rest,
    w_log (ensure_category empty_db an_importer (PStr " base.cat.all ") (start ())).2
    = [] ++ {| ev_call := Search "ir.model.data"
                             [("module", "=", PStr "base"); ("name", "=", PStr "cat.all");
                              ("model", "=", PStr "product.category")] (Some 1);
               ev_fault := fault |} :: rest.
Proof.
  destruct (qualified_id_is_split_at_first_dot empty_db an_importer
              (PStr " base.cat.all ") (start ())) as (_ & _ & H); [reflexivity|].
  exact H.
Defined.

Lemma mutations_app evs1 evs2 : mutations (evs1 ++ evs2) = mutations evs1 ++ mutations evs2.
Proof. apply filter_app. Qed.

Lemma ensure_category_no_mutation {St} (odoo : Server St) self value :
  traces (ensure_category odoo self value) (fun _ evs => mutations evs = []).
Proof.
  eapply traces_mono; [apply ensure_category_lookups|].
  intros r evs. apply lookups_are_not_mutations.
Qed.

Lemma import_row_calls {St} (odoo : Server St) self row :
  traces (import_row odoo self row) row_calls.
Proof.
  unfold import_row.
  destruct (negb _ && negb _).
  { apply traces_ret. left. split; [done|]. by intros label [= <-]. }
  apply traces_bind. eapply traces_mono; [apply ensure_category_no_mutation|].
  intros [e|cid] evs1 H1; cbv beta iota.
  { left. split; [done|]. by intros label [=]. }
  walk.
  - left. rewrite mutations_app, H1. split; [done|]. by intros label [=].
  - right. eexists (evs1 ++ [_]), _. rewrite !mutations_app, H1.
    split; [by rewrite <- app_assoc|]. split; [done|]. split; [done|].
    split; [|done]. exists [], (build_vals row cid). by left.
  - right. eexists (evs1 ++ [_]), _. rewrite !mutations_app, H1.
    split; [by rewrite <- app_assoc|]. split; [done|]. split; [done|].
    split; [|done]. exists [], (build_vals row cid). by left.
  - right. eexists (evs1 ++ [_]), _. rewrite !mutations_app, H1.
    split; [by rewrite <- app_assoc|]. split; [done|]. split; [done|].
    split; [|done]. eexists _, (build_vals row cid). by right.
  - right. eexists (evs1 ++ [_]), _. rewrite !mutations_app, H1.
    split; [by rewrite <- app_assoc|]. split; [done|]. split; [done|].
    split; [|done]. eexists _, (build_vals row cid). by right.
Qed.

(** The label of a row that went through: the one of a skipped row when code
    and name are blank, "update: " or "create: " with the code, else the
    name, otherwise. *)
Lemma import_row_label {St} (odoo : Server St) self row (w w' : world St) label :
  let default_code := _safe_str (Py.get row "default_code") in
  let name := _safe_str (Py.get row "name") in
  import_row odoo self row w = (inr label, w') ->
  (PyStr.nonempty default_code || PyStr.nonempty name = false
   /\ label = sin_nombre_ni_codigo /\ w' = w)
  \/ (PyStr.nonempty default_code || PyStr.nonempty name = true
      /\ (label = "update: " +:+ PyStr.or_else default_code name
          \/ label = "create: " +:+ PyStr.or_else default_code name)).
Proof.
  intros default_code name. unfold import_row. fold default_code name.
  destruct (PyStr.nonempty default_code), (PyStr.nonempty name); cbn [negb andb orb].
  4: { intros [= <- <-]. by left. }
  all: unfold mbind, M_bind, mret, M_ret, bind, ret;
    destruct (ensure_category _ _ _ w) as [[e|cid] w1]; [discriminate|];
    destruct (search _ _ _ _ _ w1) as [[e|[|i ids]] w2]; [discriminate| |];
    [ destruct (create _ _ _ _ w2) as [[e|x] w3]; [discriminate|]
    | destruct (write _ _ _ _ _ w2) as [[e|x] w3]; [discriminate|] ];
    intros [= <- _]; right; auto.
Qed.

(** X8: a row changes the remote store at most once, with a create or a
    write on [product.template] that is the last call made for it. A row
    with a code or a name that goes through has made exactly one such call,
    and it was answered; when a row fails after such a call, the call is
    the one that faulted. *)
Theorem import_row_mutates_at_most_once {St} (odoo : Server St) self row
    (w : world St) :
  exists evs,
    w_log (import_row odoo self row w).2 = w_log w ++ evs
    /\ (length (mutations evs) <= 1)%nat
    /\ (forall ev, ev ∈ mutations evs ->
          exists evs0, evs = evs0 ++ [ev] /\ mutations evs0 = []
            /\ exists ids vals, ev_call ev = Create "product.template" vals
                                \/ ev_call ev = Write "product.template" ids vals)
    /\ (forall label,
          (import_row odoo self row w).1 = inr label ->
          PyStr.nonempty (_safe_str (Py.get row "default_code"))
          || PyStr.nonempty (_safe_str (Py.get row "name")) = true ->
          exists ev, mutations evs = [ev] /\ ev_fault ev = None)
    /\ (forall e ev,
          (import_row odoo self row w).1 = inl e ->
          ev ∈ mutations evs -> ev_fault ev = Some e).
Proof.
  destruct (import_row_calls odoo self row w) as (evs & Hlog & Hcalls).
  pose proof (import_row_label odoo self row w) as Hlabel.
  destruct (import_row odoo self row w) as [r w'] eqn:Hrun. simpl in *.
  exists evs. split; [done|].
  destruct Hcalls as [[Hm Hskip] | (evs0 & ev & -> & Hm0 & Hm & Hcall & Hfault)].
  - rewrite Hm. split; [simpl; lia|]. split; [by intros ev ?%elem_of_nil|].
    split; [|by intros e ev _ ?%elem_of_nil].
    intros label -> Hid. specialize (Hskip label eq_refl) as ->.
    destruct (Hlabel w' sin_nombre_ni_codigo eq_refl)
      as [(Hblank & _) | (_ & [H|H])]; [congruence|done|done].
  - rewrite Hm. split; [simpl; lia|]. split; [|split].
    + intros ev' ->%list_elem_of_singleton. eauto.
    + intros label -> _. exists ev. by rewrite Hfault.
    + intros e ev' -> ->%list_elem_of_singleton. done.
Qed.

Lemma import_row_mutates_at_most_once_witness :
  exists ev,
    mutations (w_log (import_row empty_db an_importer {[ "name" := PStr "Widget" ]}
                        (start ())).2)
    = [ev]
    /\ ev_fault ev = None.
Proof.
  destruct (import_row_mutates_at_most_once empty_db an_importer
              {[ "name" := PStr "Widget" ]} (start ()))
    as (evs & Hlog & _ & _ & Hok & _).
  rewrite Hlog. apply (Hok "create: Widget"); reflexivity.
Defined.

Lemma traces_bind_len {St A B} (m : M St A) (k : A -> M St B) a b :
  traces m (fun _ evs => length evs <= a)%nat ->
  (forall x, traces (k x) (fun _ evs => length evs <= b)%nat) ->
  traces (bind m k) (fun _ evs => length evs <= a + b)%nat.
Proof.
  intros Hm Hk. apply traces_bind. eapply traces_mono; [exact Hm|].
  intros [e|x] evs1 H1; cbv beta iota in *; [lia|].
  eapply traces_mono; [apply Hk|]. intros r evs2 H2. cbv beta in *.
  rewrite length_app. lia.
Qed.

Lemma import_row_at_most_7 {St} (odoo : Server St) self row :
  traces (import_row odoo self row) (fun _ evs => length evs <= 7)%nat.
Proof.
  unfold import_row. destruct (negb _ && negb _).
  { apply traces_ret. simpl. lia. }
  apply (traces_bind_len _ _ 5 2); [apply ensure_category_at_most_5|].
  intros cid. walk; lia.
Qed.

Lemma get_thread_importer_at_most_1 {St} (odoo : Server St) url db user pw tid base :
  traces (get_thread_importer odoo url db user pw tid base)
         (fun _ evs => length evs <= 1)%nat.
Proof. unfold get_thread_importer, OdooClient_init. walk; lia. Qed.

Lemma worker_task_world {St} (odoo : Server St) url db user pw tid idx row base dry
    (w : world St) :
  (worker_task odoo url db user pw tid (idx, row, base, dry) w).2
  = (worker_body odoo url db user pw tid (idx, row, base, dry) w).2.
Proof. unfold worker_task. by destruct (worker_body _ _ _ _ _ _ _ w) as [[e|r] w']. Qed.

Lemma worker_task_at_most_8 {St} (odoo : Server St) url db user pw tid idx row
    base dry (w : world St) :
  exists evs,
    w_log (worker_task odoo url db user pw tid (idx, row, base, dry) w).2
    = w_log w ++ evs
    /\ (length evs <= 8)%nat.
Proof.
  rewrite worker_task_world.
  cut (traces (worker_body odoo url db user pw tid (idx, row, base, dry))
              (fun _ evs => length evs <= 8)%nat); [intros H; apply H|].
  unfold worker_body. destruct dry; [apply traces_ret; simpl; lia|].
  apply (traces_bind_len _ _ 1 7); [apply get_thread_importer_at_most_1|].
  intros imp. apply (traces_bind_len _ _ 7 0); [apply import_row_at_most_7|].
  intros label. apply traces_ret. simpl. lia.
Qed.

(** X9: a row costs at most eight remote calls (the authentication of the
    thread's client, five for the category, the product search and the
    create or write), at most seven on a thread that has its importer, and
    none in a dry run. *)
Theorem worker_call_budget {St} (odoo : Server St) url db user pw tid idx row
    base dry (w : world St) :
  exists evs,
    w_log (worker_task odoo url db user pw tid (idx, row, base, dry) w).2
    = w_log w ++ evs
    /\ (length evs <= 8)%nat
    /\ (is_Some (w_local w !! tid) -> (length evs <= 7)%nat)
    /\ (dry = true -> evs = []).
Proof.
  destruct (worker_task_at_most_8 odoo url db user pw tid idx row base dry w)
    as (evs & Hlog & Hlen).
  exists evs. split; [done|]. split; [done|].
  rewrite worker_task_world in Hlog. split.
  - intros [imp Himp]. destruct dry.
    { simpl in Hlog. rewrite <- (app_nil_r (w_log w)) in Hlog at 1.
      apply app_inv_head in Hlog as <-. simpl. lia. }
    unfold worker_body, get_thread_importer, get_local, mbind, M_bind, mret, M_ret,
      bind, ret in Hlog. rewrite Himp in Hlog.
    destruct (import_row_at_most_7 odoo imp (pd_Series row) w)
      as (evs' & Hlog' & Hlen').
    destruct (import_row odoo imp (pd_Series row) w) as [[e|label] w1]; simpl in *;
      rewrite Hlog in Hlog'; by apply app_inv_head in Hlog' as ->.
  - intros ->. simpl in Hlog. rewrite <- (app_nil_r (w_log w)) in Hlog at 1.
    by apply app_inv_head in Hlog as <-.
Qed.

Lemma worker_call_budget_witness :
  exists evs,
    w_log (worker_task registry_db "https://odoo.com" "Testing" "admin" "admin" 0
             (0%nat, {[ "name" := PStr "Widget"; "categ_id/id" := PStr "x.y" ]},
              ".", false)
             {| w_server := (); w_log := []; w_stdout := [];
                w_local := {[ 0%nat := an_importer ]} |}).2
    = [] ++ evs
    /\ (length evs <= 7)%nat.
Proof.
  destruct (worker_call_budget registry_db "https://odoo.com" "Testing" "admin" "admin" 0 0%nat
              {[ "name" := PStr "Widget"; "categ_id/id" := PStr "x.y" ]} "." false
              {| w_server := (); w_log := []; w_stdout := [];
                 w_local := {[ 0%nat := an_importer ]} |})
    as (evs & Hlog & _ & H7 & _).
  exists evs. split; [exact Hlog|]. apply H7. by eexists.
Defined.

(** ** Sessions *)

Lemma rstrip_slash_spec u :
  clean_head (Ascii.eqb "/") (String.rev (rstrip_slash u))
  /\ exists t, u = rstrip_slash u +:+ t /\ PyStr.all_chars (Ascii.eqb "/") t = true.
Proof.
  unfold rstrip_slash. rewrite rev_involutive. split; [apply drop_while_clean|].
  destruct (drop_while_split (Ascii.eqb "/") (String.rev u)) as (ws & Hu & Hws).
  exists (String.rev ws). split.
  - by rewrite <- rev_append, <- Hu, rev_involutive.
  - clear Hu. revert Hws. generalize (Ascii.eqb "/"). intros p.
    assert (forall s t, PyStr.all_chars p (s +:+ t)
                        = PyStr.all_chars p s && PyStr.all_chars p t) as Happ.
    { intros s t. induction s as [|c s IH]; [done|].
      rewrite append_cons. cbn [PyStr.all_chars]. by rewrite IH, andb_assoc. }
    induction ws as [|c ws IH]; [done|].
    cbn [PyStr.all_chars]. intros [Hc Hs]%andb_true_iff.
    rewrite rev_cons, Happ, IH by done. cbn [PyStr.all_chars]. by rewrite Hc.
Qed.

(** X10: making a client starts with the proxy for the address of the
    server without its trailing slashes: an address that the proxy refuses,
    as one whose scheme is neither http nor https, raises before anything
    is sent. Otherwise exactly one call is made, the authentication. A
    client exists only after the server has answered it with a truthy uid
    and the second proxy has been made: a fault or a falsy uid (False, 0,
    None, "") raises, the latter as "Error autenticando en Odoo.". The
    client keeps the credentials and the url without its trailing
    slashes. *)
Theorem client_needs_a_uid {St} (odoo : Server St) url0 db0 user0 pw0 (w : world St) :
  let common := rstrip_slash url0 +:+ "/xmlrpc/2/common" in
  let object := rstrip_slash url0 +:+ "/xmlrpc/2/object" in
  let out := OdooClient_init odoo url0 db0 user0 pw0 w in
  (forall e, ServerProxy odoo common = inl e -> out = (inl e, w))
  /\ (host_error odoo common = None ->
      Url.scheme common ∉ ["http"; "https"] ->
      out = (inl "unsupported XML-RPC protocol", w))
  /\ (ServerProxy odoo common = inr () ->
      exists fault s,
        out.2 = logged w (Authenticate db0 user0 pw0) fault s
        /\ match out.1 with
           | inr c =>
               fault = None
               /\ on_authenticate odoo db0 user0 pw0 (w_server w) = (inr (uid c), s)
               /\ Py.truthy (uid c) = true
               /\ ServerProxy odoo object = inr ()
               /\ db c = db0 /\ user c = user0 /\ password c = pw0
               /\ url c = rstrip_slash url0
               /\ clean_head (Ascii.eqb "/") (String.rev (url c))
               /\ exists t, url0 = url c +:+ t /\ PyStr.all_chars (Ascii.eqb "/") t = true
           | inl e =>
               fault = Some e
               \/ (fault = None
                   /\ exists v,
                        on_authenticate odoo db0 user0 pw0 (w_server w) = (inr v, s)
                        /\ ((Py.truthy v = false /\ e = "Error autenticando en Odoo.")
                            \/ (Py.truthy v = true
                                /\ ServerProxy odoo object = inl e)))
           end).
Proof.
  intros common object out. unfold out.
  unfold OdooClient_init, rpc, of_sum, mbind, M_bind, mret, M_ret, bind, ret, raise.
  fold common object. split; [|split].
  - by intros e ->.
  - intros Hhost Hscheme. unfold ServerProxy. rewrite Hhost.
    by rewrite bool_decide_eq_false_2.
  - intros ->.
    destruct (on_authenticate odoo db0 user0 pw0 (w_server w)) as [[e|v] s] eqn:Hauth.
    { exists (Some e), s. split; [done|]. by left. }
    exists None, s. cbn [fault_of]. destruct (Py.truthy v) eqn:Hv; cbn [negb].
    + destruct (ServerProxy odoo object) as [e|[]] eqn:Hp2.
      * split; [done|]. right. split; [done|]. exists v. split; [done|]. by right.
      * split; [done|]. cbn [fst uid db user password url].
        destruct (rstrip_slash_spec url0) as [H1 H2]. by repeat split.
    + split; [done|]. right. split; [done|]. exists v. split; [done|]. by left.
Qed.

Lemma client_needs_a_uid_witness :
  OdooClient_init empty_db "odoo.com/" "Testing" "admin" "admin" (start ())
  = (inl "unsupported XML-RPC protocol", start ())
  /\ exists fault s,
       (OdooClient_init empty_db "https://odoo.com/" "Testing" "admin" "admin"
          (start ())).2
       = logged (start ()) (Authenticate "Testing" "admin" "admin") fault s.
Proof.
  destruct (client_needs_a_uid empty_db "odoo.com/" "Testing" "admin" "admin"
              (start ())) as (_ & Hscheme & _).
  destruct (client_needs_a_uid empty_db "https://odoo.com/" "Testing" "admin" "admin"
              (start ())) as (_ & _ & Hcall).
  split.
  - apply Hscheme; [reflexivity|]. by apply (bool_decide_eq_false_1 (_ ∈ _)).
  - destruct Hcall as (fault & s & H & _); [vm_compute; reflexivity|]. eauto.
Defined.

(** X11: the importer of a thread is made once: a thread that has one gets
    it back without any call; a thread that has none makes a client, with
    no call when the address is refused and with the authentication as the
    only call otherwise, and keeps the new importer only if that went
    through, so that its next row finds it; after a failure the thread still
    has none and its next row tries again. *)
Theorem thread_importer_is_made_once {St} (odoo : Server St) url0 db0 user0 pw0
    tid base (w : world St) :
  let common := rstrip_slash url0 +:+ "/xmlrpc/2/common" in
  (forall imp base',
     w_local w !! tid = Some imp ->
     get_thread_importer odoo url0 db0 user0 pw0 tid base' w = (inr imp, w))
  /\ (w_local w !! tid = None ->
      let out := get_thread_importer odoo url0 db0 user0 pw0 tid base w in
      (forall e, ServerProxy odoo common = inl e -> out = (inl e, w))
      /\ (ServerProxy odoo common = inr () ->
          exists fault,
            w_log out.2 = w_log w ++ [{| ev_call := Authenticate db0 user0 pw0;
                                         ev_fault := fault |}])
      /\ match out.1 with
         | inr imp =>
             w_log out.2 = w_log w ++ [{| ev_call := Authenticate db0 user0 pw0;
                                          ev_fault := None |}]
             /\ w_local out.2 = <[tid := imp]> (w_local w)
             /\ base_dir imp = base
             /\ Py.truthy (uid (client imp)) = true
             /\ (forall base',
                   get_thread_importer odoo url0 db0 user0 pw0 tid base' out.2
                   = (inr imp, out.2))
         | inl e => w_local out.2 = w_local w
         end).
Proof.
  intros common. split.
  - intros imp base' Himp. by apply get_thread_importer_cached.
  - intros Hnone. cbv zeta.
    rewrite (get_thread_importer_None _ _ _ _ _ _ _ _ Hnone). fold common.
    split; [by intros e ->|]. split.
    + intros ->.
      destruct (on_authenticate odoo db0 user0 pw0 (w_server w)) as [[e|v] s];
        [by exists (Some e)|].
      exists None. cbv zeta. destruct (Py.truthy v); [|done].
      by destruct (ServerProxy odoo _) as [e|[]].
    + destruct (ServerProxy odoo common) as [e|[]]; [done|].
      destruct (on_authenticate odoo db0 user0 pw0 (w_server w)) as [[e|v] s];
        [done|].
      cbv zeta. destruct (Py.truthy v) eqn:Hv; [|done].
      destruct (ServerProxy odoo _) as [e|[]]; [done|].
      cbn [fst snd logged w_log w_local base_dir client uid].
      repeat split; try done.
      intros base'. apply get_thread_importer_cached. cbn [w_local].
      by rewrite lookup_insert_eq.
Qed.

Lemma thread_importer_is_made_once_witness :
  w_local (get_thread_importer scripted "https://odoo.com//" "Testing" "admin" "admin"
             3 "." (start [RUid (PBool false)])).2
  = ∅.
Proof.
  destruct (thread_importer_is_made_once scripted "https://odoo.com//" "Testing"
              "admin" "admin" 3 "." (start [RUid (PBool false)])) as [_ H].
  destruct H as (_ & _ & H); [reflexivity|].
  exact H.
Defined.

(** ** What a worker says *)

(** X12: the message of a successful result is "(dry-run)", the label of a
    skipped row when code and name are blank, or "update: " or "create: "
    followed by the code, else the name, as the worker reads them through
    [pd.Series]; the message of a failure starts with "ERROR en " and the
    identifier of the row, read from the record itself. *)
Theorem worker_messages {St} (odoo : Server St) url db user pw tid idx row_dict
    base dry (w : world St) :
  let row := pd_Series row_dict in
  let default_code := _safe_str (Py.get row "default_code") in
  let name := _safe_str (Py.get row "name") in
  let blank := negb (PyStr.nonempty default_code || PyStr.nonempty name) in
  let out := (worker_task odoo url db user pw tid (idx, row_dict, base, dry) w).1 in
  (out.1.2 = true
   /\ ((dry = true /\ out.2 = "(dry-run)")
       \/ (dry = false /\ blank = true /\ out.2 = sin_nombre_ni_codigo)
       \/ (dry = false /\ blank = false
           /\ (out.2 = "update: " +:+ PyStr.or_else default_code name
               \/ out.2 = "create: " +:+ PyStr.or_else default_code name))))
  \/ (out.1.2 = false /\ dry = false
      /\ exists e, out.2 = "ERROR en " +:+ row_ident row_dict +:+ ": " +:+ e).
Proof.
  intros row default_code name blank. cbv zeta.
  destruct dry; [left; split; [done|]; by left|].
  rewrite worker_task_unfold. fold row.
  destruct (get_thread_importer _ _ _ _ _ _ _ w) as [[e|imp] w1]; [right; eauto|].
  destruct (import_row odoo imp row w1) as [[e|label] w2] eqn:Himp; [right; eauto|].
  left. cbn [fst snd]. split; [done|]. right.
  apply import_row_label in Himp. fold default_code name in Himp.
  unfold blank. destruct Himp as [(-> & -> & _) | (-> & Hl)]; cbn [negb]; auto.
Qed.

(** X17: how a worker reads a record. A record with a text cell is read as
    it is. A record of numbers with a float among them is read as floats:
    the code 123 next to the price 10.5 reads as "123.0" and is created
    under that name, where the same record with a text cell more keeps
    "123"; the category 5 of such a record reads as "5.0", a module and a
    name for the registry. The failure message still shows the code of the
    record, "123". *)
Theorem series_reads_numbers_as_floats :
  let price := PFloat (FFin false 105 (-1)) in
  let numbers : gmap string pyval :=
    {[ "default_code" := PInt 123; "name" := PFloat FNan; "categ_id/id" := PInt 5;
       "list_price" := price ]} in
  let run record s :=
    worker_task scripted "https://odoo.com" "Testing" "admin" "admin" 0
      (0%nat, record, ".", false) (start s) in
  (forall data, existsb is_text (map_to_list data).*2 = true -> pd_Series data = data)
  /\ _safe_str (Py.get (pd_Series numbers) "default_code") = "123.0"
  /\ category_value (pd_Series numbers) = "5.0"
  /\ (run numbers []).1 = (0%nat, true, "create: 123.0")
  /\ (run (<["colour" := PStr "red"]> numbers) []).1 = (0%nat, true, "create: 123")
  /\ take 2 (w_log (run numbers []).2)
     = [ {| ev_call := Authenticate "Testing" "admin" "admin"; ev_fault := None |};
         {| ev_call := Search "ir.model.data"
                         [("module", "=", PStr "5"); ("name", "=", PStr "0");
                          ("model", "=", PStr "product.category")] (Some 1);
            ev_fault := None |} ]
  /\ (run numbers [RUid (PInt 2); RFault "timeout"]).1
     = (0%nat, false, "ERROR en 123: timeout").
Proof.
  intros price numbers run. split; [exact pd_Series_text|].
  do 5 (split; [vm_compute; reflexivity|]).
  vm_compute. reflexivity.
Qed.

(** X14: a worker leaves the importers of the other threads alone and never
    replaces the one its own thread has; it prints nothing, or the one
    warning about the category of its row, as read through [pd.Series]. *)
Theorem worker_keeps_sessions {St} (odoo : Server St) url db user pw tid idx
    row_dict base dry (w : world St) :
  let w' := (worker_task odoo url db user pw tid (idx, row_dict, base, dry) w).2 in
  (forall t, t <> tid \/ is_Some (w_local w !! t) -> w_local w' !! t = w_local w !! t)
  /\ (w_stdout w' = w_stdout w
      \/ w_stdout w'
         = w_stdout w
           ++ [category_warning (PyStr.strip (category_value (pd_Series row_dict)))]).
Proof. apply worker_task_effects. Qed.

Lemma worker_keeps_sessions_witness :
  w_local (worker_task empty_db "https://odoo.com" "Testing" "admin" "admin" 1
             (0%nat, {[ "name" := PStr "Widget" ]}, ".", false)
             {| w_server := (); w_log := []; w_stdout := [];
                w_local := {[ 0%nat := an_importer ]} |}).2 !! 0%nat
  = Some an_importer.
Proof.
  destruct (worker_keeps_sessions empty_db "https://odoo.com" "Testing" "admin"
              "admin" 1 0%nat {[ "name" := PStr "Widget" ]} "." false
              {| w_server := (); w_log := []; w_stdout := [];
                 w_local := {[ 0%nat := an_importer ]} |}) as [H _].
  rewrite (H 0%nat); [reflexivity | by left].
Defined.

(** ** The whole batch *)

Lemma run_pool_log {St} (odoo : Server St) url db user pw (tasks : list task)
    sched futures (w : world St) :
  exists evs,
    w_log (run_pool odoo url db user pw tasks sched futures w).2 = w_log w ++ evs
    /\ (length evs <= 8 * length sched)%nat.
Proof.
  revert futures w.
  induction sched as [|[i tid] sched IH]; intros futures w.
  - exists []. simpl. by rewrite app_nil_r.
  - cbn [run_pool]. destruct (tasks !! i) as [[[[idx row] base] dry]|] eqn:Ht.
    + destruct (worker_task_at_most_8 odoo url db user pw tid idx row base dry w)
        as (evs1 & Hlog1 & Hlen1).
      destruct (worker_task odoo url db user pw tid (idx, row, base, dry) w)
        as [r w1]. simpl in Hlog1.
      destruct (IH (<[i := r]> futures) w1) as (evs2 & Hlog2 & Hlen2).
      exists (evs1 ++ evs2). rewrite Hlog2, Hlog1, app_assoc.
      split; [done|]. rewrite length_app. simpl. lia.
    + destruct (IH futures w) as (evs & Hlog & Hlen).
      exists evs. split; [done|]. simpl. lia.
Qed.

(** X15: a batch of N rows that finishes has made at most 8 N remote calls,
    and only appended to the log of calls. *)
Theorem batch_call_budget {St} (odoo : Server St) url db user pw records base dry
    workers sched (w : world St) :
  records <> [] -> 0 < workers ->
  sched.*1 ≡ₚ seq 0 (length records) ->
  exists evs,
    w_log (main odoo url db user pw records base dry workers sched w).2
    = w_log w ++ evs
    /\ (length evs <= 8 * length records)%nat.
Proof.
  intros Hne Hw Hperm. unfold main.
  destruct (length records =? 0)%nat eqn:Hlen.
  { apply Nat.eqb_eq in Hlen. by destruct records. }
  assert ((workers <=? 0) = false) as -> by lia.
  unfold executor_map.
  match goal with
  | |- context [run_pool _ _ _ _ _ ?tasks sched ∅ ?w0] =>
      destruct (run_pool_log odoo url db user pw tasks sched ∅ w0)
        as (evs & Hlog & Hlen');
      destruct (run_pool odoo url db user pw tasks sched ∅ w0) as [futures w1]
  end.
  cbn [snd w_log out] in Hlog.
  apply Permutation_length in Hperm. rewrite length_fmap, length_seq in Hperm.
  exists evs. split; [|lia].
  destruct (mapM _ _) as [results|]; [|done].
  pose proof (report_loop (length records) results
                {| ok_count := 0; err_count := 0; reported := [] |} w1)
    as (_ & _ & _ & _ & H5 & _).
  destruct (foldl _ _ results) as [t w2]. cbn [snd w_log out] in *.
  by rewrite H5.
Qed.

Lemma batch_call_budget_witness :
  exists evs,
    w_log (main empty_db "https://odoo.com" "Testing" "admin" "admin"
             [ {[ "name" := PStr "A" ]}; {[ "name" := PStr "B" ]} ] "." false 2
             [(1, 0); (0, 0)]%nat (start ())).2
    = [] ++ evs
    /\ (length evs <= 16)%nat.
Proof.
  apply (batch_call_budget empty_db "https://odoo.com" "Testing" "admin" "admin"
           [ {[ "name" := PStr "A" ]}; {[ "name" := PStr "B" ]} ] "." false 2
           [(1, 0); (0, 0)]%nat (start ())); [discriminate | lia |].
  apply (bool_decide_unpack _). vm_compute. exact I.
Defined.
